(** * Verification of [spezi_data_pipeline.data_exploration.data_explorer]

    A shallow embedding of the visualisation module: the generic record
    visualiser ([DataExplorer]), the waveform visualiser ([ECGExplorer]),
    the selector ([visualizer_factory]) and the standalone summary
    ([explore_total_records_number]).

    The plotting backend is opaque: a figure is represented by the arguments
    it was created with and the log of drawing primitives issued on it.
    Console output is a list of printed lines.  Floating-point numbers are
    kept behind an interface ([Float64]); the properties proved here hold for
    every implementation of it. *)

From Stdlib Require Import ZArith QArith Qround Ascii String List Sorted.
From stdpp Require Import base tactics option list strings pretty.

Import ListNotations.
Open Scope Z_scope.

(** ** Numbers *)

(** The operations of Python/NumPy floats that the module uses.
    [flit] is the value of a literal, [float_of_str] is [float(token)] with
    [None] for a [ValueError].  [fdiv] is the quotient by a divisor that is
    not zero; [fis_zero] is the test [x == 0] that Python's [/] makes on its
    divisor before it divides (see [truediv]). *)
Class Float64 := {
  float : Type;
  flit : Q -> float;
  fadd : float -> float -> float;
  fmul : float -> float -> float;
  fdiv : float -> float -> float;
  fopp : float -> float;
  fceil : float -> Z;
  fis_zero : float -> bool;
  float_of_str : string -> option float;
}.

Definition float_of_int `{Float64} (n : Z) : float := flit (inject_Z n).
Definition float_of_len `{Float64} (n : nat) : float := float_of_int (Z.of_nat n).

(** ** Exceptions and the state monad of the module *)

Inductive Exn :=
| ValueError (msg : string)
| IndexError (msg : string)
| TypeError (msg : string)
| ZeroDivisionError (msg : string).

Inductive Res (A : Type) :=
| Ok (a : A)
| Raise (e : Exn).
Arguments Ok {A} a.
Arguments Raise {A} e.

Definition M (S A : Type) : Type := S -> Res A * S.

Definition ret {S A} (a : A) : M S A := fun s => (Ok a, s).

Definition bind {S A B} (m : M S A) (k : A -> M S B) : M S B :=
  fun s => match m s with
           | (Ok a, s') => k a s'
           | (Raise e, s') => (Raise e, s')
           end.

Definition raise {S A} (e : Exn) : M S A := fun s => (Raise e, s).
Definition try {S A} (r : Res A) : M S A := fun s => (r, s).
Definition get {S} : M S S := fun s => (Ok s, s).
Definition modify {S} (f : S -> S) : M S unit := fun s => (Ok tt, f s).

Declare Scope py_scope.
Delimit Scope py_scope with py.
Notation "x <- m ;; k" := (bind m (fun x => k))
  (at level 100, m at next level, right associativity) : py_scope.
Notation "m ;;; k" := (bind m (fun _ => k))
  (at level 100, right associativity) : py_scope.
Open Scope py_scope.

(** [for x in xs: acc = body(x, acc)] *)
Fixpoint for_acc {S X A} (xs : list X) (acc : A) (body : X -> A -> M S A) : M S A :=
  match xs with
  | [] => ret acc
  | x :: xs' => acc' <- body x acc ;; for_acc xs' acc' body
  end.

(** [for x in xs: body(x)] *)
Fixpoint for_each {S X} (xs : list X) (body : X -> M S unit) : M S unit :=
  match xs with
  | [] => ret tt
  | x :: xs' => body x ;;; for_each xs' body
  end.

(** [a / b] on Python numbers: a zero divisor raises [ZeroDivisionError]. *)
Definition truediv `{Float64} {S} (a b : float) : M S float :=
  if fis_zero b then raise (ZeroDivisionError "division by zero")
  else ret (fdiv a b).

(** Running a computation on one component of a product state. *)
Definition on_snd {S1 S2 A} (m : M S2 A) : M (S1 * S2) A :=
  fun s => let '(r, s2) := m (snd s) in (r, (fst s, s2)).

Definition self_ {S1 S2} : M (S1 * S2) S1 := fun s => (Ok (fst s), s).

(** ** Strings and sequences *)

(** Python's [None]-able identifiers, as they appear in f-strings. *)
Definition fmt_id (u : option string) : string :=
  match u with Some s => s | None => "None" end.

(** Characters [str.split()] treats as separators (ASCII payloads). *)
Definition is_space (c : ascii) : bool :=
  let n := nat_of_ascii c in
  ((9 <=? n)%nat && (n <=? 13)%nat) || ((28 <=? n)%nat && (n <=? 32)%nat).

(** [s.split()]: maximal runs of non-space characters, in order. *)
Fixpoint split_from (tok : option string) (s : string) : list string :=
  match s with
  | EmptyString => match tok with Some t => [t] | None => [] end
  | String c s' =>
      if is_space c then
        match tok with
        | Some t => t :: split_from None s'
        | None => split_from None s'
        end
      else
        split_from (Some (match tok with
                          | Some t => t +:+ String c EmptyString
                          | None => String c EmptyString
                          end)) s'
  end.

Definition split (s : string) : list string := split_from None s.

(** [a[lo:hi]] for non-negative bounds: out-of-range bounds are clamped. *)
Definition py_slice {A} (a : list A) (lo hi : nat) : list A :=
  firstn (hi - lo) (skipn lo a).

(** [Series.unique()]: distinct values in order of first appearance. *)
Fixpoint unique_from (seen : list string) (l : list string) : list string :=
  match l with
  | [] => []
  | x :: t =>
      if existsb (String.eqb x) seen then unique_from seen t
      else x :: unique_from (x :: seen) t
  end.

Definition unique (l : list string) : list string := unique_from [] l.

(** Calendar dates and timestamps, as day ordinals. *)
Definition date := Z.

(** [DataFrame.duplicated(subset=[col])] on the column's values: a row is
    flagged when its value occurred in an earlier row. *)
Fixpoint duplicated_from (seen : list date) (l : list date) : list bool :=
  match l with
  | [] => []
  | x :: t => existsb (Z.eqb x) seen :: duplicated_from (x :: seen) t
  end.

Definition duplicated (l : list date) : list bool := duplicated_from [] l.

(** [Series.any()] *)
Definition any (l : list bool) : bool := existsb (fun b => b) l.

(** ** The tabular dataset *)

(** Modelled from the spec: the record-kind tag [FHIRResourceType] is declared
    in [fhir_resources_flattener]; the selector distinguishes its two members
    [OBSERVATION] and [ECG_OBSERVATION] from every other value, which is
    carried here by the text an f-string prints for it. *)
Inductive FHIRResourceType :=
| OBSERVATION
| ECG_OBSERVATION
| OTHER_RESOURCE (repr : string).

Definition resource_type_str (k : FHIRResourceType) : string :=
  match k with
  | OBSERVATION => "FHIRResourceType.OBSERVATION"
  | ECG_OBSERVATION => "FHIRResourceType.ECG_OBSERVATION"
  | OTHER_RESOURCE repr => repr
  end.

Definition resource_type_eqb (a b : FHIRResourceType) : bool :=
  match a, b with
  | OBSERVATION, OBSERVATION => true
  | ECG_OBSERVATION, ECG_OBSERVATION => true
  | OTHER_RESOURCE x, OTHER_RESOURCE y => String.eqb x y
  | _, _ => false
  end.

(** One record of the dataset; the fields are the columns named by
    [ColumnNames].  [SAMPLING_FREQUENCY] is [None] when the column is absent
    (the case in which [row.get] falls back to its default). *)
Record Row `{Float64} := {
  USER_ID : string;
  LOINC_CODE : string;
  EFFECTIVE_DATE_TIME : date;
  QUANTITY_NAME : string;
  QUANTITY_UNIT : string;
  QUANTITY_VALUE : float;
  ECG_RECORDING : option string;
  ECG_RECORDING_UNIT : string;
  SAMPLING_FREQUENCY : option float;
}.

Record FHIRDataFrame `{Float64} := {
  df : list Row;
  resource_type : FHIRResourceType;
}.

(** [frame[frame[col] == value]] with a possibly-[None] value: the comparison
    with [None] is false on every row. *)
Definition id_eqb (s : string) (u : option string) : bool :=
  match u with Some v => String.eqb s v | None => false end.

(** The collaborators outside this module: date parsing and printing, and the
    date-range row selection of [data_processor]. *)
Class Collaborators `{Float64} := {
  strptime_ymd : string -> option date;
  date_str : date -> string;
  strftime_ymd : date -> string;
  select_data_by_dates : FHIRDataFrame -> date -> date -> FHIRDataFrame;
}.

(** ** The plotting backend *)

Inductive Color `{Float64} :=
| ColorName (name : string)
| ColorRGB (r g b : float).

(** [np.arange(start, stop, step)], kept symbolic. *)
Record Arange `{Float64} := { a_start : float; a_stop : float; a_step : float }.

Record LegendArgs := {
  legend_title : string;
  legend_fontsize : Z;
  legend_title_fontsize : Z;
  bbox_to_anchor : Q * Q;
  legend_loc : string;
}.

(** Calls of the state-based interface, which act on the current figure.
    [DataFrameBar] is the bar chart pandas draws for a table of counts. *)
Inductive PltCall `{Float64} :=
| Scatter (x : list date) (y : list float) (label edgecolor : string) (linewidth : float)
| Bar (x : list date) (y : list float) (label edgecolor : string) (linewidth : float)
| Title (s : string) (fontsize : option Z)
| XLabel (s : string) (fontsize : option Z)
| YLabel (s : string) (fontsize : option Z)
| Legend (kwargs : option LegendArgs)
| XTicks (rotation : Z) (ha : option string) (fontsize : option Z)
| YLim (lo hi : option float)
| TightLayout
| DataFrameBar (counts : list (string * list (string * nat))).

(** Calls on an axes object. *)
Inductive AxCall `{Float64} :=
| SetTitle (s : string)
| SetYLabel (s : string)
| SetXLabel (s : string)
| SetXTicks (t : Arange)
| SetYTicks (t : Arange)
| MinorTicksOn
| SetMinorLocatorX (n : Z)
| SetYLim (lo hi : float)
| SetXLim (lo hi : float)
| Grid (which linestyle linewidth : string) (color : Color)
| Plot (x : Arange) (y : list float) (linewidth : float)
| Text (x y : float) (s ha va transform : string).

Inductive FigCall `{Float64} :=
| OnCurrentAxes (c : PltCall)
| OnAxes (i : nat) (c : AxCall).

Inductive FigInit :=
| ImplicitFigure
| FigureCall (figsize : Z * Z) (dpi : option Z)
| SubplotsCall (nrows ncols : nat) (figsize : Z * Z) (constrained_layout : bool)
| PandasPlotFigure.

(** A figure: how it was created and what has been drawn on it so far. *)
Record Figure `{Float64} := {
  created_by : FigInit;
  calls : list FigCall;
}.

Definition add_call `{Float64} (c : FigCall) (f : Figure) : Figure :=
  {| created_by := created_by f; calls := calls f ++ [c] |}.

(** The process-wide state the module acts on: the console, and the figure
    registry of the plotting library (most recent first; the head is the
    current figure; a figure's handle is its creation index). *)
Record World `{Float64} := {
  stdout : list string;
  figs : list Figure;
  shows : nat;
}.

Definition FigureHandle := nat.
Definition AxesHandle := (FigureHandle * nat)%type.

Definition figure_at `{Float64} (w : World) (h : FigureHandle) : option Figure :=
  rev (figs w) !! h.

Definition print `{Float64} (line : string) : M World unit :=
  modify (fun w => {| stdout := stdout w ++ [line]; figs := figs w; shows := shows w |}).

Definition with_figs `{Float64} (f : list Figure -> list Figure) : M World unit :=
  modify (fun w => {| stdout := stdout w; figs := f (figs w); shows := shows w |}).

(** [plt.figure(figsize=..., dpi=...)]: a new figure becomes current. *)
Definition plt_figure `{Float64} (figsize : Z * Z) (dpi : option Z) : M World FigureHandle :=
  w <- get ;;
  with_figs (cons {| created_by := FigureCall figsize dpi; calls := [] |}) ;;;
  ret (length (figs w)).

(** [plt.subplots(nrows, 1, figsize=..., constrained_layout=...)] *)
Definition plt_subplots `{Float64} (nrows ncols : nat) (figsize : Z * Z) (constrained : bool)
  : M World (FigureHandle * list AxesHandle) :=
  w <- get ;;
  with_figs (cons {| created_by := SubplotsCall nrows ncols figsize constrained; calls := [] |}) ;;;
  let h := length (figs w) in
  ret (h, map (fun i => (h, i)) (seq 0 (nrows * ncols))).

(** [plt.gcf()]: the current figure, created if there is none. *)
Definition plt_gcf `{Float64} : M World FigureHandle :=
  w <- get ;;
  match figs w with
  | [] => with_figs (cons {| created_by := ImplicitFigure; calls := [] |}) ;;; ret 0%nat
  | _ :: rest => ret (length rest)
  end.

(** A state-based call: drawn on the current figure. *)
Definition plt_call `{Float64} (c : PltCall) : M World unit :=
  plt_gcf ;;;
  with_figs (fun fs => match fs with
                       | f :: rest => add_call (OnCurrentAxes c) f :: rest
                       | [] => []
                       end).

(** A method call on an axes object. *)
Definition ax_call `{Float64} (ax : AxesHandle) (c : AxCall) : M World unit :=
  with_figs (fun fs =>
    if (fst ax <? length fs)%nat
    then alter (add_call (OnAxes (snd ax) c)) (length fs - 1 - fst ax)%nat fs
    else fs).

(** [plt.show()] *)
Definition plt_show `{Float64} : M World unit :=
  modify (fun w => {| stdout := stdout w; figs := figs w; shows := S (shows w) |}).

(** ** Module constants *)

Definition TIME_UNIT : string := "sec".
Definition ECG_MICROVOLT_UNIT : string := "uV".
Definition ECG_MILLIVOLT_UNIT : string := "mV".
Definition DEFAULT_SAMPLE_RATE_VALUE : Z := 500.
Definition DEFAULT_DPI_VALUE : Z := 300.
Definition DEFAULT_LINE_WIDTH_VALUE : Q := 0.5.
Definition DEFAULT_AMPLITUDE_ECG : Q := 1.8.
Definition DEFAULT_TIME_TICKS : Q := 0.2.

(** The value of the [user_ids] attribute when it is not [None]: a list of
    (possibly [None]) identifiers, or a single identifier. *)
Inductive UserIds :=
| IdList (l : list (option string))
| IdScalar (u : string).

(** [datetime.strptime(s, "%Y-%m-%d").date() if s else None] *)
Definition parse_bound `{Collaborators} {S} (s : option string) : M S (option date) :=
  match s with
  | None | Some EmptyString => ret None
  | Some txt =>
      match strptime_ymd txt with
      | Some d => ret (Some d)
      | None => raise (ValueError ("time data '" +:+ txt +:+ "' does not match format '%Y-%m-%d'"))
      end
  end.

Definition opt_date_str `{Collaborators} (d : option date) : string :=
  match d with Some d => date_str d | None => "None" end.

(** [frame[col].iloc[0]] *)
Definition iloc0 `{Float64} {S} (frame : list Row) (col : Row -> string) : M S string :=
  match frame with
  | r :: _ => ret (col r)
  | [] => raise (IndexError "single positional indexer is out-of-bounds")
  end.

Record PlotInfo `{Float64} := {
  plot_type : string;
  data_frame : list Row;
}.

(** [plot_data_based_on_condition] *)
Definition plot_data_based_on_condition `{Float64}
    (user_df : list Row) (user_id : option string) : M World PlotInfo :=
  let '(plot_type, plot_function) :=
    if any (duplicated (map EFFECTIVE_DATE_TIME user_df))
    then ("scatter", Scatter)
    else ("bar", Bar) in
  plt_call (plot_function (map EFFECTIVE_DATE_TIME user_df)
                          (map QUANTITY_VALUE user_df)
                          ("User " +:+ fmt_id user_id)
                          "black"
                          (flit 1.5)) ;;;
  ret {| plot_type := plot_type; data_frame := user_df |}.

(** ** The generic visualiser *)

Module DataExplorer.

Record t `{Float64} := {
  start_date : option date;
  end_date : option date;
  user_ids : option UserIds;
  y_lower : option float;
  y_upper : option float;
  combine_plots : bool;
}.

Definition Meth `{Float64} (A : Type) : Type := M (t * World) A.

Definition update `{Float64} (f : t -> t) : Meth unit :=
  modify (fun s => (f (fst s), snd s)).

Definition __init__ `{Float64} : t :=
  {| start_date := None; end_date := None; user_ids := None;
     y_lower := None; y_upper := None; combine_plots := true |}.

Definition set_date_range `{Collaborators} (start_date' end_date' : option string)
  : Meth unit :=
  sd <- parse_bound start_date' ;;
  update (fun self =>
    {| start_date := sd; end_date := end_date self; user_ids := user_ids self;
       y_lower := y_lower self; y_upper := y_upper self;
       combine_plots := combine_plots self |}) ;;;
  ed <- parse_bound end_date' ;;
  update (fun self =>
    {| start_date := start_date self; end_date := ed; user_ids := user_ids self;
       y_lower := y_lower self; y_upper := y_upper self;
       combine_plots := combine_plots self |}).

Definition set_user_ids `{Float64} (user_ids' : option UserIds) : Meth unit :=
  update (fun self =>
    {| start_date := start_date self; end_date := end_date self; user_ids := user_ids';
       y_lower := y_lower self; y_upper := y_upper self;
       combine_plots := combine_plots self |}).


Definition set_combine_plots `{Float64} (combine_plots' : bool) : Meth unit :=
  update (fun self =>
    {| start_date := start_date self; end_date := end_date self;
       user_ids := user_ids self;
       y_lower := y_lower self; y_upper := y_upper self;
       combine_plots := combine_plots' |}).

(** The [date_range_title] of both plotting methods. *)
Definition date_range_title `{Collaborators} (self : t) : string :=
  if negb (bool_decide (is_Some (start_date self)))
     && negb (bool_decide (is_Some (end_date self)))
  then "for all dates"
  else "from " +:+ opt_date_str (start_date self) +:+ " to " +:+ opt_date_str (end_date self).

(** [plot_combined] *)
Definition plot_combined `{Collaborators}
    (df_loinc : list Row) (users_to_plot : list (option string)) (loinc_code : string)
  : Meth FigureHandle :=
  on_snd (plt_figure (10, 6) (Some DEFAULT_DPI_VALUE)) ;;;
  for_each users_to_plot (fun user_id =>
    let user_df := List.filter (fun r => id_eqb (USER_ID r) user_id) df_loinc in
    on_snd (plot_data_based_on_condition user_df user_id) ;;; ret tt) ;;;
  self <- self_ ;;
  let date_range_title := date_range_title self in
  name <- iloc0 df_loinc QUANTITY_NAME ;;
  on_snd (plt_call (Title (name +:+ " for LOINC Code " +:+ loinc_code +:+ " "
                           +:+ date_range_title) None)) ;;;
  on_snd (plt_call (XLabel "Date" None)) ;;;
  name <- iloc0 df_loinc QUANTITY_NAME ;;
  unit <- iloc0 df_loinc QUANTITY_UNIT ;;
  on_snd (plt_call (YLabel (name +:+ " (" +:+ unit +:+ ")") None)) ;;;
  on_snd (plt_call (Legend None)) ;;;
  on_snd (plt_call (XTicks 45 None None)) ;;;
  self <- self_ ;;
  on_snd (plt_call (YLim (y_lower self) (y_upper self))) ;;;
  on_snd (plt_call TightLayout) ;;;
  fig <- on_snd plt_gcf ;;
  on_snd plt_show ;;;
  ret fig.

(** [plot_individual] *)
Definition plot_individual `{Collaborators}
    (df_loinc : list Row) (user_id : option string) (loinc_code : string)
  : Meth (option FigureHandle) :=
  match user_id with
  | None =>
      on_snd (print "User ID must be provided for individual plots.") ;;;
      ret None
  | Some _ =>
      let user_df := List.filter (fun r => id_eqb (USER_ID r) user_id) df_loinc in
      match user_df with
      | [] =>
          on_snd (print ("No data found for user ID " +:+ fmt_id user_id
                         +:+ " and LOINC code " +:+ loinc_code +:+ ".")) ;;;
          ret None
      | _ :: _ =>
          on_snd (plt_figure (10, 6) (Some DEFAULT_DPI_VALUE)) ;;;
          self <- self_ ;;
          let date_range_title := date_range_title self in
          name <- iloc0 user_df QUANTITY_NAME ;;
          on_snd (plt_call (Title (name +:+ " for User ID " +:+ fmt_id user_id +:+ " "
                                   +:+ date_range_title) None)) ;;;
          on_snd (plot_data_based_on_condition user_df user_id) ;;;
          on_snd (plt_call (XLabel "Date" None)) ;;;
          name <- iloc0 user_df QUANTITY_NAME ;;
          unit <- iloc0 user_df QUANTITY_UNIT ;;
          on_snd (plt_call (YLabel (name +:+ " (" +:+ unit +:+ ")") None)) ;;;
          on_snd (plt_call (Legend None)) ;;;
          on_snd (plt_call (XTicks 45 None None)) ;;;
          self <- self_ ;;
          on_snd (plt_call (YLim (y_lower self) (y_upper self))) ;;;
          on_snd (plt_call TightLayout) ;;;
          fig <- on_snd plt_gcf ;;
          on_snd plt_show ;;;
          ret (Some fig)
      end
  end.

(** [create_static_plot] *)
Definition create_static_plot `{Collaborators} (fhir_dataframe : FHIRDataFrame)
  : Meth (list FigureHandle) :=
  let figures : list FigureHandle := [] in
  self <- self_ ;;
  let user_ids :=
    match user_ids self with
    | None => map Some (unique (map USER_ID (df fhir_dataframe)))
    | Some (IdList l) => l
    | Some (IdScalar u) => [Some u]
    end in
  self <- self_ ;;
  let fhir_dataframe :=
    match start_date self, end_date self with
    | Some sd, Some ed => select_data_by_dates fhir_dataframe sd ed
    | _, _ => fhir_dataframe
    end in
  match df fhir_dataframe with
  | [] =>
      on_snd (print "No data for the selected date range.") ;;;
      ret figures
  | _ :: _ =>
      let loinc_codes := unique (map LOINC_CODE (df fhir_dataframe)) in
      for_acc loinc_codes figures (fun loinc_code figures =>
        let df_loinc :=
          List.filter (fun r => String.eqb (LOINC_CODE r) loinc_code) (df fhir_dataframe) in
        self <- self_ ;;
        if combine_plots self then
          fig <- plot_combined df_loinc user_ids loinc_code ;;
          ret (figures ++ [fig])
        else
          for_acc user_ids figures (fun user_id figures =>
            r <- plot_individual df_loinc user_id loinc_code ;;
            match r with
            | Some fig => ret (figures ++ [fig])
            | None => ret figures
            end))
  end.

End DataExplorer.

(** ** The waveform visualiser *)

(** [np.array(tokens, dtype=float)] *)
Fixpoint np_array_float `{Float64} (tokens : list string) : Res (list float) :=
  match tokens with
  | [] => Ok []
  | tok :: rest =>
      match float_of_str tok with
      | Some v =>
          match np_array_float rest with
          | Ok vs => Ok (v :: vs)
          | Raise e => Raise e
          end
      | None => Raise (ValueError ("could not convert string to float: '" +:+ tok +:+ "'"))
      end
  end.

(** [seq[i]] *)
Definition getitem {S A} (l : list A) (i : nat) : M S A :=
  match l !! i with
  | Some a => ret a
  | None => raise (IndexError "list index out of range")
  end.

(** [ecg_array / 1000] *)
Definition div_1000 `{Float64} (ecg_array : list float) : list float :=
  map (fun v => fdiv v (float_of_int 1000)) ecg_array.

(** The unit normalisation of [plot_single_user_ecg]. *)
Definition to_millivolt `{Float64} (recording_unit : string) (ecg_array : list float)
  : list float :=
  if String.eqb recording_unit ECG_MICROVOLT_UNIT then div_1000 ecg_array else ecg_array.

(** The three [ecg_parts] of [plot_single_user_ecg]. *)
Definition ecg_parts {A} (ecg_array : list A) : list (list A) :=
  let split_length := (length ecg_array / 3)%nat in
  map (fun i => py_slice ecg_array (i * split_length) ((i + 1) * split_length)) (seq 0 3).

Module ECGExplorer.

Record t `{Float64} := {
  lwidth : float;
  start_date : option date;
  end_date : option date;
  user_ids : option (list (option string));
  amplitude_ecg : float;
  time_ticks : float;
}.

Definition Meth `{Float64} (A : Type) : Type := M (t * World) A.

Definition update `{Float64} (f : t -> t) : Meth unit :=
  modify (fun s => (f (fst s), snd s)).

Definition __init__ `{Float64} : t :=
  {| lwidth := flit DEFAULT_LINE_WIDTH_VALUE;
     start_date := None; end_date := None; user_ids := None;
     amplitude_ecg := flit DEFAULT_AMPLITUDE_ECG;
     time_ticks := flit DEFAULT_TIME_TICKS |}.

Definition set_date_range `{Collaborators} (start_date' end_date' : option string)
  : Meth unit :=
  sd <- parse_bound start_date' ;;
  update (fun self =>
    {| lwidth := lwidth self; start_date := sd; end_date := end_date self;
       user_ids := user_ids self; amplitude_ecg := amplitude_ecg self;
       time_ticks := time_ticks self |}) ;;;
  ed <- parse_bound end_date' ;;
  update (fun self =>
    {| lwidth := lwidth self; start_date := start_date self; end_date := ed;
       user_ids := user_ids self; amplitude_ecg := amplitude_ecg self;
       time_ticks := time_ticks self |}).

(** [self.user_ids = user_ids if isinstance(user_ids, list) else [user_ids]] *)
Definition set_user_ids `{Float64} (user_ids' : option UserIds) : Meth unit :=
  let ids := match user_ids' with
             | Some (IdList l) => l
             | Some (IdScalar u) => [Some u]
             | None => [None]
             end in
  update (fun self =>
    {| lwidth := lwidth self; start_date := start_date self; end_date := end_date self;
       user_ids := Some ids; amplitude_ecg := amplitude_ecg self;
       time_ticks := time_ticks self |}).

(** [_ax_plot] *)
Definition _ax_plot `{Float64} (ax : AxesHandle) (x : Arange) (y : list float) (secs : float)
  : Meth unit :=
  self <- self_ ;;
  on_snd (ax_call ax (SetXTicks {| a_start := float_of_int 0;
                                   a_stop := fadd secs (time_ticks self);
                                   a_step := time_ticks self |})) ;;;
  self <- self_ ;;
  on_snd (ax_call ax (SetYTicks {| a_start := float_of_int (- fceil (amplitude_ecg self));
                                   a_stop := float_of_int (fceil (amplitude_ecg self));
                                   a_step := flit 1.0 |})) ;;;
  on_snd (ax_call ax MinorTicksOn) ;;;
  on_snd (ax_call ax (SetMinorLocatorX 5)) ;;;
  self <- self_ ;;
  on_snd (ax_call ax (SetYLim (fopp (amplitude_ecg self)) (amplitude_ecg self))) ;;;
  on_snd (ax_call ax (SetXLim (float_of_int 0) secs)) ;;;
  on_snd (ax_call ax (Grid "major" "-" "0.5" (ColorName "red"))) ;;;
  on_snd (ax_call ax (Grid "minor" "-" "0.5" (ColorRGB (flit 1) (flit 0.7) (flit 0.7)))) ;;;
  self <- self_ ;;
  on_snd (ax_call ax (Plot x y (lwidth self))).

(** [_plot_single_lead_ecg].  A sample rate is a float here, so the
    conversion of a [Decimal] rate is the identity; the two divisions by the
    rate come after the title and the labels, and raise on a zero rate. *)
Definition _plot_single_lead_ecg `{Float64}
    (ecg : list float) (sample_rate : float) (title : string) (ax : option AxesHandle)
  : Meth unit :=
  ax <- match ax with
        | None =>
            r <- on_snd (plt_subplots 1 1 (15, 2) false) ;;
            getitem (snd r) 0
        | Some ax => ret ax
        end ;;
  on_snd (ax_call ax (SetTitle title)) ;;;
  on_snd (ax_call ax (SetYLabel ("ECG (" +:+ ECG_MILLIVOLT_UNIT +:+ ")"))) ;;;
  on_snd (ax_call ax (SetXLabel ("Time (" +:+ TIME_UNIT +:+ ")"))) ;;;
  seconds <- truediv (float_of_len (length ecg)) sample_rate ;;
  step <- truediv (flit 1.0) sample_rate ;;
  _ax_plot ax
    {| a_start := float_of_int 0;
       a_stop := fmul (float_of_len (length ecg)) step;
       a_step := step |}
    ecg seconds.

(** The body of the loop of [plot_single_user_ecg]: one figure for one row. *)
Definition plot_recording `{Collaborators} (row : Row) (user_id : option string)
  : Meth FigureHandle :=
  r <- on_snd (plt_subplots 3 1 (15, 6) true) ;;
  let '(fig, axs) := r in
  let effective_date := strftime_ymd (EFFECTIVE_DATE_TIME row) in
  match ECG_RECORDING row with
  | Some recording =>
      ecg_array <- try (np_array_float (split recording)) ;;
      let ecg_array := to_millivolt (ECG_RECORDING_UNIT row) ecg_array in
      let sample_rate :=
        default (float_of_int DEFAULT_SAMPLE_RATE_VALUE) (SAMPLING_FREQUENCY row) in
      let ecg_parts := ecg_parts ecg_array in
      for_each (imap pair ecg_parts) (fun '(i, ecg) =>
        let title := "ECG Part " +:+ pretty (i + 1)%nat +:+ " for User "
                     +:+ fmt_id user_id +:+ " on " +:+ effective_date in
        ax <- getitem axs i ;;
        _plot_single_lead_ecg ecg sample_rate title (Some ax))
  | None =>
      for_each (seq 0 3) (fun i =>
        ax <- getitem axs i ;;
        on_snd (ax_call ax (Text (flit 0.5) (flit 0.5)
                                 "No ECG data available for this recording."
                                 "center" "center" "transAxes")))
  end ;;;
  on_snd plt_show ;;;
  ret fig.

(** [plot_single_user_ecg] *)
Definition plot_single_user_ecg `{Collaborators}
    (user_data : list Row) (user_id : option string)
  : Meth (list FigureHandle) :=
  let figures : list FigureHandle := [] in
  for_acc user_data figures (fun row figures =>
    fig <- plot_recording row user_id ;;
    ret (figures ++ [fig])).

(** The row selection of [plot_ecg_subplots] for one identifier. *)
Definition user_data_of `{Float64} (self : t) (frame : list Row) (user_id : option string)
  : list Row :=
  match start_date self, end_date self with
  | Some sd, Some ed =>
      List.filter (fun r => id_eqb (USER_ID r) user_id
                            && (sd <=? EFFECTIVE_DATE_TIME r)
                            && (EFFECTIVE_DATE_TIME r <=? ed)) frame
  | _, _ => List.filter (fun r => id_eqb (USER_ID r) user_id) frame
  end.

(** [plot_ecg_subplots] *)
Definition plot_ecg_subplots `{Collaborators} (fhir_dataframe : FHIRDataFrame)
  : Meth (list FigureHandle) :=
  let figures : list FigureHandle := [] in
  self <- self_ ;;
  let users_to_plot :=
    match user_ids self with
    | Some ids => ids
    | None => map Some (unique (map USER_ID (df fhir_dataframe)))
    end in
  for_acc users_to_plot figures (fun user_id figures =>
    self <- self_ ;;
    let user_data := user_data_of self (df fhir_dataframe) user_id in
    match user_data with
    | _ :: _ =>
        figs <- plot_single_user_ecg user_data user_id ;;
        ret (figures ++ figs)
    | [] =>
        on_snd (print ("No ECG data found for user ID: " +:+ fmt_id user_id
                       +:+ " in the given date range")) ;;;
        ret figures
    end).

End ECGExplorer.

(** ** The selector *)

Inductive Visualizer `{Float64} :=
| IsDataExplorer (v : DataExplorer.t)
| IsECGExplorer (v : ECGExplorer.t).

(** [visualizer_factory] *)
Definition visualizer_factory `{Float64} (fhir_dataframe : FHIRDataFrame) : Res Visualizer :=
  if resource_type_eqb (resource_type fhir_dataframe) OBSERVATION then
    Ok (IsDataExplorer DataExplorer.__init__)
  else if resource_type_eqb (resource_type fhir_dataframe) ECG_OBSERVATION then
    Ok (IsECGExplorer ECGExplorer.__init__)
  else
    Raise (ValueError ("Unsupported resource type: "
                       +:+ resource_type_str (resource_type fhir_dataframe))).

(** ** The standalone summary *)

(** A cell of the ["EffectiveDateTime"] column of a plain data frame: text
    that has not been parsed, or a timestamp. *)
Inductive Cell :=
| CellText (s : string)
| CellTime (t : Z).

Record RawRow := {
  EffectiveDateTime : Cell;
  UserId : string;
  LoincCode : string;
  other_columns : list (string * string);
}.

Definition DataFrame := list RawRow.

(** The timestamp parser of pandas on text ([None]: not a date). *)
Class Pandas := {
  to_datetime_str : string -> option Z;
}.

(** [pd.to_datetime(column)] *)
Fixpoint to_datetime `{Pandas} (column : list Cell) : Res (list Z) :=
  match column with
  | [] => Ok []
  | c :: rest =>
      match (match c with CellText s => to_datetime_str s | CellTime t => Some t end) with
      | Some t =>
          match to_datetime rest with
          | Ok ts => Ok (t :: ts)
          | Raise e => Raise e
          end
      | None => Raise (ValueError "Unknown datetime string format")
      end
  end.

(** [frame["EffectiveDateTime"] = column] *)
Fixpoint setitem_EffectiveDateTime (frame : DataFrame) (column : list Z) : DataFrame :=
  match frame, column with
  | r :: frame', t :: column' =>
      {| EffectiveDateTime := CellTime t; UserId := UserId r; LoincCode := LoincCode r;
         other_columns := other_columns r |} :: setitem_EffectiveDateTime frame' column'
  | _, _ => []
  end.

(** A comparison of the (timestamp) column with a bound given as text. *)
Definition bound_of `{Pandas} {S} (s : string) : M S Z :=
  match to_datetime_str s with
  | Some t => ret t
  | None => raise (TypeError "Invalid comparison between dtype=datetime64[ns] and str")
  end.

Definition cell_ge (c : Cell) (b : Z) : bool :=
  match c with CellTime t => b <=? t | CellText _ => false end.

Definition cell_le (c : Cell) (b : Z) : bool :=
  match c with CellTime t => t <=? b | CellText _ => false end.

(** Sorted group keys. *)
Fixpoint insert_sorted (x : string) (l : list string) : list string :=
  match l with
  | [] => [x]
  | y :: t => if String.leb x y then x :: l else y :: insert_sorted x t
  end.

Definition sort_strings (l : list string) : list string :=
  foldr insert_sorted [] l.

(** [frame.groupby(["LoincCode", "UserId"]).size().unstack(fill_value=0)] *)
Definition group_counts (frame : DataFrame) : list (string * list (string * nat)) :=
  let codes := sort_strings (unique (map LoincCode frame)) in
  let users := sort_strings (unique (map UserId frame)) in
  map (fun code =>
         (code, map (fun user =>
                       (user, length (List.filter
                                        (fun r => String.eqb (LoincCode r) code
                                                  && String.eqb (UserId r) user) frame)))
                    users))
      codes.

(** [counts.plot(kind="bar")]: pandas draws on a figure of its own. *)
Definition dataframe_plot_bar `{Float64} (counts : list (string * list (string * nat)))
  : M World unit :=
  match counts with
  | [] => raise (TypeError "no numeric data to plot")
  | _ :: _ =>
      with_figs (cons {| created_by := PandasPlotFigure; calls := [] |}) ;;;
      plt_call (DataFrameBar counts)
  end.

(** [explore_total_records_number].  The first component of the state is the
    data frame object the caller passed as [df]; the frames produced by row
    selection are new objects, held in the local variable. *)
Definition explore_total_records_number `{Float64} `{Pandas}
    (start_date end_date : option string) (user_ids : option (string + list string))
  : M (DataFrame * World) unit :=
  caller <- get ;;
  column <- try (to_datetime (map EffectiveDateTime (fst caller))) ;;
  modify (fun s => (setitem_EffectiveDateTime (fst s) column, snd s)) ;;;
  s <- get ;;
  let df := fst s in
  df <- match start_date, end_date with
        | Some start_date, Some end_date =>
            lo <- bound_of start_date ;;
            hi <- bound_of end_date ;;
            ret (List.filter (fun r => cell_ge (EffectiveDateTime r) lo
                                       && cell_le (EffectiveDateTime r) hi) df)
        | _, _ => ret df
        end ;;
  let user_ids := match user_ids with
                  | Some (inl one) => Some [one]
                  | Some (inr many) => Some many
                  | None => None
                  end in
  let df := match user_ids with
            | Some ids => List.filter (fun r => existsb (String.eqb (UserId r)) ids) df
            | None => df
            end in
  let counts := group_counts df in
  on_snd (plt_figure (40, 50) None) ;;;
  on_snd (dataframe_plot_bar counts) ;;;
  on_snd (plt_call (Title "Number of records by Loinc code" (Some 16))) ;;;
  on_snd (plt_call (XLabel "Loinc code" (Some 14))) ;;;
  on_snd (plt_call (YLabel "Count" (Some 14))) ;;;
  on_snd (plt_call (XTicks 45 (Some "right") (Some 12))) ;;;
  on_snd (plt_call (Legend (Some {| legend_title := "User ID"; legend_fontsize := 12;
                                    legend_title_fontsize := 14;
                                    bbox_to_anchor := (1.05, 1)%Q;
                                    legend_loc := "upper left" |}))) ;;;
  on_snd (plt_call TightLayout) ;;;
  on_snd plt_show.

(** ** A reference implementation of the interfaces

    Used to run the model on concrete inputs: rationals for numbers, with
    [float(token)] on plain digit strings; dates printed as their ordinal. *)

Fixpoint parse_digits (acc : Z) (s : string) : option Z :=
  match s with
  | EmptyString => Some acc
  | String c s' =>
      let n := Z.of_nat (nat_of_ascii c) in
      if (48 <=? n) && (n <=? 57) then parse_digits (10 * acc + (n - 48)) s' else None
  end.

Definition parse_number (s : string) : option Z :=
  match s with
  | EmptyString => None
  | _ => parse_digits 0 s
  end.

#[export] Instance QFloat : Float64 := {|
  float := Q;
  flit := fun q => q;
  fadd := Qplus;
  fmul := Qmult;
  fdiv := Qdiv;
  fis_zero := fun q => Qeq_bool q 0;
  fopp := Qopp;
  fceil := Qceiling;
  float_of_str := fun s => inject_Z <$> parse_number s;
|}.

(** Modelled from the spec: [select_data_by_dates] of [data_processor],
    "given the dataset and inclusive start/end dates, returns the subset
    whose timestamp column falls within range". *)
Definition select_rows_by_dates (fhir_dataframe : @FHIRDataFrame QFloat) (sd ed : date)
  : @FHIRDataFrame QFloat :=
  {| df := List.filter (fun r => (sd <=? EFFECTIVE_DATE_TIME r) && (EFFECTIVE_DATE_TIME r <=? ed))
                       (df fhir_dataframe);
     resource_type := resource_type fhir_dataframe |}.

#[export] Instance RefCollaborators : @Collaborators QFloat := {|
  strptime_ymd := parse_number;
  date_str := pretty;
  strftime_ymd := pretty;
  select_data_by_dates := select_rows_by_dates;
|}.

#[export] Instance RefPandas : Pandas := {|
  to_datetime_str := parse_number;
|}.

(** ** Notions used in the statements *)

Definition set_figs `{Float64} (fs : list Figure) (w : World) : World :=
  {| stdout := stdout w; figs := fs; shows := shows w |}.

Definition say `{Float64} (line : string) (w : World) : World :=
  {| stdout := stdout w ++ [line]; figs := figs w; shows := shows w |}.

Definition shown `{Float64} (w : World) : World :=
  {| stdout := stdout w; figs := figs w; shows := S (shows w) |}.

(** The world after a state-based call [c]. *)
Definition draw `{Float64} (c : PltCall) (w : World) : World :=
  set_figs (match figs w with
            | [] => [add_call (OnCurrentAxes c) {| created_by := ImplicitFigure; calls := [] |}]
            | f :: rest => add_call (OnCurrentAxes c) f :: rest
            end) w.

(** Two rows of a column carry the same timestamp. *)
Definition has_duplicate (ts : list date) : Prop :=
  exists (i j : nat) (t : date), (i < j)%nat /\ ts !! i = Some t /\ ts !! j = Some t.



(** The data series overlaid on a figure: label and number of points of every
    scatter or bar call. *)
Definition series_of `{Float64} (c : FigCall) : option (string * nat) :=
  match c with
  | OnCurrentAxes (Scatter x _ label _ _) => Some (label, length x)
  | OnCurrentAxes (Bar x _ label _ _) => Some (label, length x)
  | _ => None
  end.

Definition series `{Float64} (fig : Figure) : list (string * nat) :=
  omap series_of (calls fig).

(** The dataset after the date-range step of [create_static_plot]. *)
Definition date_filtered `{Collaborators} (self : DataExplorer.t)
    (fhir_dataframe : FHIRDataFrame) : FHIRDataFrame :=
  match DataExplorer.start_date self, DataExplorer.end_date self with
  | Some sd, Some ed => select_data_by_dates fhir_dataframe sd ed
  | _, _ => fhir_dataframe
  end.

(** A method leaves the object it is called on as it found it. *)
Definition keeps_self {S1 S2 A} (m : M (S1 * S2) A) : Prop :=
  forall s, fst (snd (m s)) = fst s.

(** The waveforms a row is expected to put on its figure: the three parts of
    its normalised recording on the axes 0, 1, 2; nothing when the row has no
    recording. *)
Definition expected_waveforms `{Float64} (row : Row) : Res (list (nat * list float)) :=
  match ECG_RECORDING row with
  | None => Ok []
  | Some recording =>
      match np_array_float (split recording) with
      | Ok ecg_array => Ok (imap pair (ecg_parts (to_millivolt (ECG_RECORDING_UNIT row) ecg_array)))
      | Raise e => Raise e
      end
  end.




(** ** Concrete inputs *)

Definition empty_world : @World QFloat := {| stdout := []; figs := []; shows := 0 |}.

(** A waveform row: identifier, day, payload, unit of the payload. *)
Definition ecg_row (user_id : string) (day : date) (recording : option string)
    (recording_unit : string) : @Row QFloat :=
  {| USER_ID := user_id; LOINC_CODE := "131328"; EFFECTIVE_DATE_TIME := day;
     QUANTITY_NAME := "ECG"; QUANTITY_UNIT := recording_unit; QUANTITY_VALUE := 0%Q;
     ECG_RECORDING := recording; ECG_RECORDING_UNIT := recording_unit;
     SAMPLING_FREQUENCY := Some 2%Q |}.


(** An observation row: identifier, code, day, value. *)
Definition obs_row (user_id loinc_code : string) (day : date) (value : Q) : @Row QFloat :=
  {| USER_ID := user_id; LOINC_CODE := loinc_code; EFFECTIVE_DATE_TIME := day;
     QUANTITY_NAME := "Heart rate"; QUANTITY_UNIT := "beats/minute";
     QUANTITY_VALUE := value;
     ECG_RECORDING := None; ECG_RECORDING_UNIT := ""; SAMPLING_FREQUENCY := None |}.

Definition observations (rows : list (@Row QFloat)) : @FHIRDataFrame QFloat :=
  {| df := rows; resource_type := OBSERVATION |}.

Definition ecg_days_3_to_7 : @ECGExplorer.t QFloat :=
  {| ECGExplorer.lwidth := 0.5%Q; ECGExplorer.start_date := Some 3;
     ECGExplorer.end_date := Some 7; ECGExplorer.user_ids := None;
     ECGExplorer.amplitude_ecg := 1.8%Q; ECGExplorer.time_ticks := 0.2%Q |}.

(** A generic visualiser configured with a date range, identifiers and the
    combine flag. *)
Definition explorer (range : option (date * date)) (ids : option UserIds) (combine : bool)
  : @DataExplorer.t QFloat :=
  {| DataExplorer.start_date := fst <$> range; DataExplorer.end_date := snd <$> range;
     DataExplorer.user_ids := ids; DataExplorer.y_lower := None;
     DataExplorer.y_upper := None; DataExplorer.combine_plots := combine |}.

(** The draw call [plot_data_based_on_condition] issues for a row group. *)
Definition condition_call `{Float64} (user_df : list Row) (user_id : option string)
  : PltCall :=
  (if any (duplicated (map EFFECTIVE_DATE_TIME user_df)) then Scatter else Bar)
    (map EFFECTIVE_DATE_TIME user_df) (map QUANTITY_VALUE user_df)
    ("User " +:+ fmt_id user_id) "black" (flit 1.5).

(** The rows of an identifier in a group. *)
Definition rows_of `{Float64} (frame : list Row) (user_id : option string) : list Row :=
  List.filter (fun r => id_eqb (USER_ID r) user_id) frame.

(** The identifiers [create_static_plot] plots: the configured ones, else the
    distinct identifiers of the dataset it was given. *)
Definition resolved_user_ids `{Float64} (self : DataExplorer.t)
    (fhir_dataframe : FHIRDataFrame) : list (option string) :=
  match DataExplorer.user_ids self with
  | None => map Some (unique (map USER_ID (df fhir_dataframe)))
  | Some (IdList l) => l
  | Some (IdScalar u) => [Some u]
  end.

(** The rows of a code group. *)
Definition group_of `{Float64} (frame : list Row) (loinc_code : string) : list Row :=
  List.filter (fun r => String.eqb (LOINC_CODE r) loinc_code) frame.

(** A figure of [plot_combined] for a group: the series of the listed
    identifiers, one draw call each in list order, then the decorations
    (title, labels, legend, limits), which draw no series. *)
Definition overlays `{Float64} (fig : Figure) (group : list Row)
    (user_ids : list (option string)) : Prop :=
  created_by fig = FigureCall (10, 6) (Some DEFAULT_DPI_VALUE)
  /\ exists decorations : list FigCall,
      calls fig =
        map (fun u => OnCurrentAxes (condition_call (rows_of group u) u)) user_ids
        ++ decorations
      /\ omap series_of decorations = [].

(** A row of a plain data frame. *)
Definition raw_row (timestamp : Cell) (user_id loinc_code : string) : RawRow :=
  {| EffectiveDateTime := timestamp; UserId := user_id; LoincCode := loinc_code;
     other_columns := [] |}.

(** ** Separate mode, identifier by identifier *)

(** The line [plot_individual] prints instead of drawing, if any. *)
Definition individual_notice `{Float64} (df_loinc : list Row) (loinc_code : string)
    (user_id : option string) : option string :=
  match user_id with
  | None => Some "User ID must be provided for individual plots."
  | Some u =>
      match rows_of df_loinc user_id with
      | [] => Some ("No data found for user ID " +:+ u +:+ " and LOINC code "
                    +:+ loinc_code +:+ ".")
      | _ :: _ => None
      end
  end.

(** The identifier has rows in the group. *)
Definition has_rows `{Float64} (df_loinc : list Row) (user_id : option string) : bool :=
  match rows_of df_loinc user_id with [] => false | _ :: _ => true end.

(** The (code, identifier) pairs with rows, code by code, and the notices
    for the other pairs, in the order of the loops of [create_static_plot]. *)
Definition plotted_pairs `{Float64} (frame : list Row) (loinc_codes : list string)
    (user_ids : list (option string)) : list (string * option string) :=
  concat (map (fun c => map (pair c) (List.filter (has_rows (group_of frame c)) user_ids))
              loinc_codes).

Definition separate_notices `{Float64} (frame : list Row) (loinc_codes : list string)
    (user_ids : list (option string)) : list string :=
  concat (map (fun c => omap (individual_notice (group_of frame c) c) user_ids) loinc_codes).

(** A figure of [plot_individual]: the series of one identifier. *)
Definition individual_figure `{Float64} (fig : Figure) (group : list Row)
    (user_id : option string) : Prop :=
  created_by fig = FigureCall (10, 6) (Some DEFAULT_DPI_VALUE)
  /\ series fig = [("User " +:+ fmt_id user_id, length (rows_of group user_id))].

(** ** Setting a date range *)

(** The value a bound of [set_date_range] is set to: [None] for [None] and
    for the empty text, the parsed date otherwise, and a [ValueError] for
    text that is no date. *)
Definition bound_value `{Collaborators} (s : option string) : Res (option date) :=
  match s with
  | None | Some EmptyString => Ok None
  | Some txt =>
      match strptime_ymd txt with
      | Some d => Ok (Some d)
      | None => Raise (ValueError ("time data '" +:+ txt
                                   +:+ "' does not match format '%Y-%m-%d'"))
      end
  end.

Definition with_start_date `{Float64} (sd : option date) (self : DataExplorer.t)
  : DataExplorer.t :=
  {| DataExplorer.start_date := sd; DataExplorer.end_date := DataExplorer.end_date self;
     DataExplorer.user_ids := DataExplorer.user_ids self;
     DataExplorer.y_lower := DataExplorer.y_lower self;
     DataExplorer.y_upper := DataExplorer.y_upper self;
     DataExplorer.combine_plots := DataExplorer.combine_plots self |}.

Definition with_end_date `{Float64} (ed : option date) (self : DataExplorer.t)
  : DataExplorer.t :=
  {| DataExplorer.start_date := DataExplorer.start_date self; DataExplorer.end_date := ed;
     DataExplorer.user_ids := DataExplorer.user_ids self;
     DataExplorer.y_lower := DataExplorer.y_lower self;
     DataExplorer.y_upper := DataExplorer.y_upper self;
     DataExplorer.combine_plots := DataExplorer.combine_plots self |}.

Definition ecg_with_start_date `{Float64} (sd : option date) (self : ECGExplorer.t)
  : ECGExplorer.t :=
  {| ECGExplorer.lwidth := ECGExplorer.lwidth self; ECGExplorer.start_date := sd;
     ECGExplorer.end_date := ECGExplorer.end_date self;
     ECGExplorer.user_ids := ECGExplorer.user_ids self;
     ECGExplorer.amplitude_ecg := ECGExplorer.amplitude_ecg self;
     ECGExplorer.time_ticks := ECGExplorer.time_ticks self |}.

Definition ecg_with_end_date `{Float64} (ed : option date) (self : ECGExplorer.t)
  : ECGExplorer.t :=
  {| ECGExplorer.lwidth := ECGExplorer.lwidth self;
     ECGExplorer.start_date := ECGExplorer.start_date self; ECGExplorer.end_date := ed;
     ECGExplorer.user_ids := ECGExplorer.user_ids self;
     ECGExplorer.amplitude_ecg := ECGExplorer.amplitude_ecg self;
     ECGExplorer.time_ticks := ECGExplorer.time_ticks self |}.

(** ** The waveform render call, identifier by identifier *)





Definition ecg_with_user_ids `{Float64} (ids : option (list (option string)))
    (self : ECGExplorer.t) : ECGExplorer.t :=
  {| ECGExplorer.lwidth := ECGExplorer.lwidth self;
     ECGExplorer.start_date := ECGExplorer.start_date self;
     ECGExplorer.end_date := ECGExplorer.end_date self;
     ECGExplorer.user_ids := ids;
     ECGExplorer.amplitude_ecg := ECGExplorer.amplitude_ecg self;
     ECGExplorer.time_ticks := ECGExplorer.time_ticks self |}.




(** * Properties *)

(** ** The monad *)

Lemma bind_ok {S A B} (m : M S A) (k : A -> M S B) s a s' :
  m s = (Ok a, s') -> bind m k s = k a s'.
Proof. intros E. unfold bind. now rewrite E. Qed.


Lemma on_snd_run {S1 S2 A} (m : M S2 A) (s1 : S1) s2 r s2' :
  m s2 = (r, s2') -> on_snd m (s1, s2) = (r, (s1, s2')).
Proof. intros E. unfold on_snd. simpl. now rewrite E. Qed.

(** ** The selector *)

(** C3: the selector returns a fresh generic visualiser for the
    plain-observation kind, a fresh waveform visualiser for the ECG kind, and
    raises a [ValueError] whose message names the kind for every other kind. *)
Theorem visualizer_factory_by_kind `{Float64} (fhir_dataframe : FHIRDataFrame) :
  visualizer_factory fhir_dataframe =
    match resource_type fhir_dataframe with
    | OBSERVATION => Ok (IsDataExplorer DataExplorer.__init__)
    | ECG_OBSERVATION => Ok (IsECGExplorer ECGExplorer.__init__)
    | OTHER_RESOURCE repr => Raise (ValueError ("Unsupported resource type: " +:+ repr))
    end.
Proof.
  unfold visualizer_factory.
  destruct (resource_type fhir_dataframe); reflexivity.
Qed.

(** ** Duplicate detection *)

Lemma existsb_Zeqb_In (x : Z) (seen : list Z) :
  existsb (Z.eqb x) seen = true <-> x ∈ seen.
Proof.
  rewrite existsb_exists, list_elem_of_In. split.
  - intros (y & Hy & E). apply Z.eqb_eq in E. now subst.
  - intros Hx. exists x. split; [assumption | apply Z.eqb_refl].
Qed.

Lemma any_duplicated_from_false (seen l : list date) :
  any (duplicated_from seen l) = false <->
  NoDup l /\ (forall x, x ∈ l -> x ∉ seen).
Proof.
  revert seen. induction l as [|x t IH]; intros seen.
  - simpl. split; [intros _; split; [constructor | intros ? Hx; inversion Hx] | reflexivity].
  - change (any (duplicated_from seen (x :: t)))
      with (existsb (Z.eqb x) seen || any (duplicated_from (x :: seen) t)).
    rewrite orb_false_iff, IH, NoDup_cons. split.
    + intros (Hx & Hnd & Hseen). split; [split; [|assumption]|].
      * intros Hin. apply (Hseen x Hin). now left.
      * intros y Hy. apply elem_of_cons in Hy as [-> | Hy].
        -- intros Hin. apply existsb_Zeqb_In in Hin. congruence.
        -- intros Hin. apply (Hseen y Hy). now right.
    + intros ((Hx & Hnd) & Hseen). split; [|split].
      * destruct (existsb (Z.eqb x) seen) eqn:E; [|reflexivity].
        apply existsb_Zeqb_In in E. exfalso. apply (Hseen x); [now left | assumption].
      * assumption.
      * intros y Hy Hin. apply elem_of_cons in Hin as [-> | Hin]; [contradiction|].
        apply (Hseen y); [now right | assumption].
Qed.

Lemma any_duplicated_NoDup (l : list date) :
  any (duplicated l) = false <-> NoDup l.
Proof.
  unfold duplicated. rewrite any_duplicated_from_false. split.
  - now intros [? _].
  - intros Hnd. split; [assumption | intros ? _ Hx; inversion Hx].
Qed.

Lemma has_duplicate_not_NoDup (l : list date) :
  has_duplicate l <-> ~ NoDup l.
Proof.
  split.
  - intros (i & j & t & Hlt & Hi & Hj) Hnd.
    rewrite NoDup_alt in Hnd. specialize (Hnd i j t Hi Hj). lia.
  - induction l as [|x t IH]; intros Hnd.
    + exfalso. apply Hnd. constructor.
    + destruct (decide (x ∈ t)) as [Hin | Hnin].
      * apply list_elem_of_lookup in Hin as [k Hk].
        exists 0%nat, (S k), x. repeat split; [lia | assumption].
      * destruct IH as (i & j & y & Hlt & Hi & Hj).
        -- intros Hnd'. apply Hnd. now constructor.
        -- exists (S i), (S j), y. repeat split; [lia | assumption | assumption].
Qed.

Lemma any_duplicated_true (l : list date) :
  any (duplicated l) = true <-> has_duplicate l.
Proof.
  rewrite has_duplicate_not_NoDup, <- any_duplicated_NoDup.
  destruct (any (duplicated l)); intuition congruence.
Qed.

(** ** The plotting primitives *)

Lemma with_figs_run `{Float64} (f : list Figure -> list Figure) (w : World) :
  with_figs f w = (Ok tt, set_figs (f (figs w)) w).
Proof. reflexivity. Qed.

Lemma plt_call_run `{Float64} (c : PltCall) (w : World) :
  plt_call c w = (Ok tt, draw c w).
Proof.
  unfold plt_call, plt_gcf, draw, bind, get. destruct w as [out fs n]; simpl.
  destruct fs; reflexivity.
Qed.

Lemma print_run `{Float64} (line : string) (w : World) :
  print line w = (Ok tt, say line w).
Proof. reflexivity. Qed.

Lemma plt_show_run `{Float64} (w : World) : plt_show w = (Ok tt, shown w).
Proof. reflexivity. Qed.

Lemma plt_figure_run `{Float64} figsize dpi (w : World) :
  plt_figure figsize dpi w =
  (Ok (length (figs w)),
   set_figs ({| created_by := FigureCall figsize dpi; calls := [] |} :: figs w) w).
Proof. reflexivity. Qed.

(** The outcome of [plot_data_based_on_condition]: one draw call on the
    current figure, scatter or bar by the presence of a repeated timestamp. *)
Lemma plot_data_based_on_condition_run `{Float64} user_df user_id (w : World) :
  plot_data_based_on_condition user_df user_id w =
  let ts := map EFFECTIVE_DATE_TIME user_df in
  let ys := map QUANTITY_VALUE user_df in
  let label := "User " +:+ fmt_id user_id in
  if any (duplicated ts)
  then (Ok {| plot_type := "scatter"; data_frame := user_df |},
        draw (Scatter ts ys label "black" (flit 1.5)) w)
  else (Ok {| plot_type := "bar"; data_frame := user_df |},
        draw (Bar ts ys label "black" (flit 1.5)) w).
Proof.
  unfold plot_data_based_on_condition. cbv zeta.
  destruct (any (duplicated (map EFFECTIVE_DATE_TIME user_df)));
    (erewrite bind_ok by apply plt_call_run); reflexivity.
Qed.

(** C2: for every row group handed to [plot_data_based_on_condition], the call
    succeeds and issues exactly one draw call on the current figure; that
    call is a scatter call (and the reported plot type is "scatter") if and
    only if two rows of the group share a timestamp, and it is a bar call
    (plot type "bar") if and only if the timestamps are pairwise distinct. *)
Theorem scatter_iff_duplicate_timestamps `{Float64}
    (user_df : list Row) (user_id : option string) (w : World) :
  let ts := map EFFECTIVE_DATE_TIME user_df in
  let ys := map QUANTITY_VALUE user_df in
  let label := "User " +:+ fmt_id user_id in
  exists (info : PlotInfo) (c : PltCall),
    plot_data_based_on_condition user_df user_id w = (Ok info, draw c w)
    /\ data_frame info = user_df
    /\ ((c = Scatter ts ys label "black" (flit 1.5) /\ plot_type info = "scatter")
        <-> has_duplicate ts)
    /\ ((c = Bar ts ys label "black" (flit 1.5) /\ plot_type info = "bar")
        <-> NoDup ts).
Proof.
  intros ts ys label. rewrite plot_data_based_on_condition_run. cbv zeta.
  fold ts ys label.
  destruct (any (duplicated ts)) eqn:E.
  - apply any_duplicated_true in E as Hdup.
    eexists _, _. split; [reflexivity|]. split; [reflexivity|]. split.
    + split; [intros _; exact Hdup | intros _; split; reflexivity].
    + split; [intros [Hc _]; discriminate Hc |].
      intros Hnd. apply has_duplicate_not_NoDup in Hdup. contradiction.
  - apply any_duplicated_NoDup in E as Hnd.
    eexists _, _. split; [reflexivity|]. split; [reflexivity|]. split.
    + split; [intros [Hc _]; discriminate Hc |].
      intros Hdup. apply has_duplicate_not_NoDup in Hdup. contradiction.
    + split; [intros _; exact Hnd | intros _; split; reflexivity].
Qed.

(** ** Row selection of the waveform visualiser *)

Lemma in_range_mask `{Float64} (r : Row) (user_id : string) (sd ed : date) :
  id_eqb (USER_ID r) (Some user_id)
  && (sd <=? EFFECTIVE_DATE_TIME r) && (EFFECTIVE_DATE_TIME r <=? ed) = true
  <-> USER_ID r = user_id /\ sd <= EFFECTIVE_DATE_TIME r <= ed.
Proof.
  simpl. rewrite !andb_true_iff, String.eqb_eq, !Z.leb_le. tauto.
Qed.

(** C5: with both bounds of the date range set, the rows selected for an
    identifier are the rows of the dataset, in dataset order, that carry the
    identifier and whose timestamp lies between the bounds, both included; a
    row is selected if and only if it is such a row. *)
Theorem ecg_selection_is_inclusive_range `{Float64}
    (self : ECGExplorer.t) (frame : list Row) (user_id : string) (sd ed : date) :
  ECGExplorer.start_date self = Some sd ->
  ECGExplorer.end_date self = Some ed ->
  ECGExplorer.user_data_of self frame (Some user_id) =
    List.filter (fun r => bool_decide (USER_ID r = user_id
                                       /\ sd <= EFFECTIVE_DATE_TIME r <= ed)) frame
  /\ (forall r, In r (ECGExplorer.user_data_of self frame (Some user_id)) <->
                In r frame /\ USER_ID r = user_id /\ sd <= EFFECTIVE_DATE_TIME r <= ed).
Proof.
  intros Hs He. unfold ECGExplorer.user_data_of. rewrite Hs, He. split.
  - apply List.filter_ext. intros r.
    destruct (id_eqb (USER_ID r) (Some user_id) && (sd <=? EFFECTIVE_DATE_TIME r)
              && (EFFECTIVE_DATE_TIME r <=? ed)) eqn:E.
    + apply in_range_mask in E. symmetry. now apply bool_decide_eq_true.
    + symmetry. apply bool_decide_eq_false. intros Hr.
      apply in_range_mask in Hr. congruence.
  - intros r. rewrite List.filter_In, in_range_mask. tauto.
Qed.

(** ** Rendering does not write the configuration *)

Section KeepsSelf.
Context {S1 S2 : Type}.

Lemma keeps_ret {A} (a : A) : keeps_self (S1:=S1) (S2:=S2) (ret a).
Proof. intros s. reflexivity. Qed.

Lemma keeps_raise {A} e : keeps_self (S1:=S1) (S2:=S2) (A:=A) (raise e).
Proof. intros s. reflexivity. Qed.

Lemma keeps_try {A} (r : Res A) : keeps_self (S1:=S1) (S2:=S2) (try r).
Proof. intros s. reflexivity. Qed.

Lemma keeps_self_ : keeps_self (S1:=S1) (S2:=S2) self_.
Proof. intros s. reflexivity. Qed.

Lemma keeps_on_snd {A} (m : M S2 A) : keeps_self (S1:=S1) (on_snd m).
Proof. intros s. unfold on_snd. destruct (m (snd s)). reflexivity. Qed.

Lemma keeps_bind {A B} (m : M (S1 * S2) A) (k : A -> M (S1 * S2) B) :
  keeps_self m -> (forall a, keeps_self (k a)) -> keeps_self (bind m k).
Proof.
  intros Hm Hk s. unfold bind. specialize (Hm s).
  destruct (m s) as [[a|e] s']; simpl in *.
  - rewrite Hk. exact Hm.
  - exact Hm.
Qed.

Lemma keeps_for_acc {X A} (xs : list X) (acc : A) (body : X -> A -> M (S1 * S2) A) :
  (forall x a, keeps_self (body x a)) -> keeps_self (for_acc xs acc body).
Proof.
  intros Hb. revert acc. induction xs as [|x xs IH]; intros acc; simpl.
  - apply keeps_ret.
  - apply keeps_bind; [apply Hb | intros a; apply IH].
Qed.

Lemma keeps_for_each {X} (xs : list X) (body : X -> M (S1 * S2) unit) :
  (forall x, keeps_self (body x)) -> keeps_self (for_each xs body).
Proof.
  intros Hb. induction xs as [|x xs IH]; simpl.
  - apply keeps_ret.
  - apply keeps_bind; [apply Hb | intros _; apply IH].
Qed.

Lemma keeps_getitem {A} (l : list A) i : keeps_self (S1:=S1) (S2:=S2) (getitem l i).
Proof. unfold getitem. destruct (l !! i); [apply keeps_ret | apply keeps_raise]. Qed.

End KeepsSelf.

Lemma keeps_iloc0 `{Float64} {S1 S2} frame col :
  keeps_self (S1:=S1) (S2:=S2) (iloc0 frame col).
Proof. unfold iloc0. destruct frame; [apply keeps_raise | apply keeps_ret]. Qed.

Lemma keeps_truediv `{Float64} {S1 S2} a b :
  keeps_self (S1:=S1) (S2:=S2) (truediv a b).
Proof. unfold truediv. destruct (fis_zero b); [apply keeps_raise | apply keeps_ret]. Qed.

Create HintDb frame.
#[export] Hint Resolve keeps_ret keeps_raise keeps_try keeps_self_ keeps_on_snd
  keeps_getitem keeps_iloc0 keeps_truediv : frame.

Ltac frame_step :=
  match goal with
  | |- keeps_self (bind _ _) => apply keeps_bind; [|intros ?]
  | |- keeps_self (for_acc _ _ _) => apply keeps_for_acc; intros ? ?
  | |- keeps_self (for_each _ _) => apply keeps_for_each; intros ?
  | |- keeps_self (match ?x with _ => _ end) => destruct x
  | |- keeps_self _ => solve [auto with frame]
  end.

Ltac frame := repeat frame_step.

Lemma plot_combined_keeps_self `{Collaborators} df_loinc users_to_plot loinc_code :
  keeps_self (DataExplorer.plot_combined df_loinc users_to_plot loinc_code).
Proof. unfold DataExplorer.plot_combined. frame. Qed.

Lemma plot_individual_keeps_self `{Collaborators} df_loinc user_id loinc_code :
  keeps_self (DataExplorer.plot_individual df_loinc user_id loinc_code).
Proof. unfold DataExplorer.plot_individual. frame. Qed.

Lemma create_static_plot_keeps_self `{Collaborators} fhir_dataframe :
  keeps_self (DataExplorer.create_static_plot fhir_dataframe).
Proof.
  unfold DataExplorer.create_static_plot. cbv zeta.
  frame; auto using plot_combined_keeps_self, plot_individual_keeps_self.
Qed.

Lemma _ax_plot_keeps_self `{Float64} ax x y secs :
  keeps_self (ECGExplorer._ax_plot ax x y secs).
Proof. unfold ECGExplorer._ax_plot. frame. Qed.

Lemma _plot_single_lead_ecg_keeps_self `{Float64} ecg sample_rate title ax :
  keeps_self (ECGExplorer._plot_single_lead_ecg ecg sample_rate title ax).
Proof.
  unfold ECGExplorer._plot_single_lead_ecg. cbv zeta.
  frame; auto using _ax_plot_keeps_self.
Qed.

Lemma plot_recording_keeps_self `{Collaborators} row user_id :
  keeps_self (ECGExplorer.plot_recording row user_id).
Proof.
  unfold ECGExplorer.plot_recording. cbv zeta.
  frame; auto using _plot_single_lead_ecg_keeps_self.
Qed.

Lemma plot_single_user_ecg_keeps_self `{Collaborators} user_data user_id :
  keeps_self (ECGExplorer.plot_single_user_ecg user_data user_id).
Proof.
  unfold ECGExplorer.plot_single_user_ecg. cbv zeta.
  frame; auto using plot_recording_keeps_self.
Qed.

Lemma plot_ecg_subplots_keeps_self `{Collaborators} fhir_dataframe :
  keeps_self (ECGExplorer.plot_ecg_subplots fhir_dataframe).
Proof.
  unfold ECGExplorer.plot_ecg_subplots. cbv zeta.
  frame; auto using plot_single_user_ecg_keeps_self.
Qed.

(** C9: a render call of either visualiser ends, normally or with an
    exception, with the visualiser's configuration equal to the one it was
    called with, for every configuration, dataset and state of the console
    and of the plotting library; hence a render call that follows it runs
    exactly as it would have run on the original configuration. *)
Theorem render_keeps_configuration `{Collaborators} :
  (forall (self : DataExplorer.t) (fhir_dataframe : FHIRDataFrame) (w : World),
      fst (snd (DataExplorer.create_static_plot fhir_dataframe (self, w))) = self)
  /\ (forall (self : ECGExplorer.t) (fhir_dataframe : FHIRDataFrame) (w : World),
      fst (snd (ECGExplorer.plot_ecg_subplots fhir_dataframe (self, w))) = self)
  /\ (forall (self : DataExplorer.t) (d1 d2 : FHIRDataFrame) (w : World),
      let after := snd (DataExplorer.create_static_plot d1 (self, w)) in
      DataExplorer.create_static_plot d2 after =
      DataExplorer.create_static_plot d2 (self, snd after))
  /\ (forall (self : ECGExplorer.t) (d1 d2 : FHIRDataFrame) (w : World),
      let after := snd (ECGExplorer.plot_ecg_subplots d1 (self, w)) in
      ECGExplorer.plot_ecg_subplots d2 after =
      ECGExplorer.plot_ecg_subplots d2 (self, snd after)).
Proof.
  repeat split.
  - intros self fdf w. apply (create_static_plot_keeps_self fdf (self, w)).
  - intros self fdf w. apply (plot_ecg_subplots_keeps_self fdf (self, w)).
  - intros self d1 d2 w after.
    pose proof (create_static_plot_keeps_self d1 (self, w)) as E. fold after in E.
    destruct after as [self' w']. simpl in *. now subst.
  - intros self d1 d2 w after.
    pose proof (plot_ecg_subplots_keeps_self d1 (self, w)) as E. fold after in E.
    destruct after as [self' w']. simpl in *. now subst.
Qed.

(** ** The generic visualiser *)

Lemma create_static_plot_empty `{Collaborators}
    (self : DataExplorer.t) (fhir_dataframe : FHIRDataFrame) (w : World) :
  df (date_filtered self fhir_dataframe) = [] ->
  DataExplorer.create_static_plot fhir_dataframe (self, w) =
  (Ok [], (self, say "No data for the selected date range." w)).
Proof.
  intros Hempty. unfold DataExplorer.create_static_plot, date_filtered in *.
  unfold bind at 1. simpl. unfold bind at 1. simpl.
  rewrite Hempty. reflexivity.
Qed.

(** C8: when both bounds of the date range are set and the date-filtered
    dataset has no rows, the render call returns normally with an empty list
    of figures; its only effect is the line "No data for the selected date
    range." on the console: no figure is created and the configuration is
    unchanged. *)
Theorem empty_date_range_gives_notice `{Collaborators}
    (self : DataExplorer.t) (fhir_dataframe : FHIRDataFrame) (sd ed : date) (w : World) :
  DataExplorer.start_date self = Some sd ->
  DataExplorer.end_date self = Some ed ->
  df (select_data_by_dates fhir_dataframe sd ed) = [] ->
  DataExplorer.create_static_plot fhir_dataframe (self, w) =
  (Ok [], (self, {| stdout := stdout w ++ ["No data for the selected date range."];
                    figs := figs w; shows := shows w |})).
Proof.
  intros Hs He Hempty. apply create_static_plot_empty.
  unfold date_filtered. now rewrite Hs, He.
Qed.

(** ** Symbolic execution of the waveform visualiser *)

Lemma ax_call_head `{Float64} out (f : Figure) rest n i c :
  ax_call (length rest, i) c {| stdout := out; figs := f :: rest; shows := n |} =
  (Ok tt, {| stdout := out; figs := add_call (OnAxes i c) f :: rest; shows := n |}).
Proof.
  unfold ax_call. rewrite with_figs_run. unfold set_figs. cbn [fst snd figs stdout shows].
  replace (length rest <? length (f :: rest))%nat with true
    by (symmetry; apply Nat.ltb_lt; simpl; lia).
  replace (length (f :: rest) - 1 - length rest)%nat with 0%nat by (simpl; lia).
  reflexivity.
Qed.



Lemma self_run {S1 S2} (s1 : S1) (s2 : S2) : self_ (s1, s2) = (Ok s1, (s1, s2)).
Proof. reflexivity. Qed.

Lemma ret_run {S A} (a : A) (s : S) : ret a s = (Ok a, s).
Proof. reflexivity. Qed.


Lemma getitem_run {S A} (l : list A) (i : nat) (a : A) (s : S) :
  l !! i = Some a -> getitem l i s = (Ok a, s).
Proof. intros E. unfold getitem. now rewrite E. Qed.




Lemma try_run {S A} (r : A) (s : S) : try (Ok r) s = (Ok r, s).
Proof. reflexivity. Qed.

Lemma plt_subplots_run `{Float64} nrows ncols figsize constrained (w : World) :
  plt_subplots nrows ncols figsize constrained w =
  (Ok (length (figs w), map (fun i => (length (figs w), i)) (seq 0 (nrows * ncols))),
   set_figs ({| created_by := SubplotsCall nrows ncols figsize constrained; calls := [] |}
             :: figs w) w).
Proof. reflexivity. Qed.

Lemma bind_assoc {S A B C} (m : M S A) (k1 : A -> M S B) (k2 : B -> M S C) s :
  bind (bind m k1) k2 s = bind m (fun a => bind (k1 a) k2) s.
Proof. unfold bind. destruct (m s) as [[a|e] s']; reflexivity. Qed.

Lemma ecg_parts_three {A} (a : list A) :
  ecg_parts a =
  let sl := (length a / 3)%nat in
  [py_slice a (0 * sl) ((0 + 1) * sl);
   py_slice a (1 * sl) ((1 + 1) * sl);
   py_slice a (2 * sl) ((2 + 1) * sl)].
Proof. reflexivity. Qed.




(** The figure behind the [k]-th handle created after a world with figures
    [old]. *)
Lemma figure_at_new `{Float64} (new old : list Figure) out n (k : nat) :
  figure_at {| stdout := out; figs := rev new ++ old; shows := n |} (length old + k)%nat
  = new !! k.
Proof.
  unfold figure_at. cbn [figs]. rewrite rev_app_distr, rev_involutive.
  rewrite lookup_app_r by (rewrite length_rev; lia).
  rewrite length_rev. f_equal. lia.
Qed.

(** ** The three parts of a recording *)

Lemma py_slice_part {A} (a : list A) (i sl : nat) :
  py_slice a (i * sl) ((i + 1) * sl) = take sl (drop (i * sl) a).
Proof. unfold py_slice. f_equal. lia. Qed.


Lemma ecg_parts_take_drop {A} (a : list A) :
  ecg_parts a =
  [take (length a / 3) a;
   take (length a / 3) (drop (length a / 3) a);
   take (length a / 3) (drop (2 * (length a / 3)) a)].
Proof.
  rewrite ecg_parts_three. cbv zeta. rewrite !py_slice_part.
  rewrite Nat.mul_0_l, Nat.mul_1_l. reflexivity.
Qed.


(** ** What the waveform visualiser draws *)








Lemma ecg_selection_is_inclusive_range_witness :
  ECGExplorer.user_data_of ecg_days_3_to_7
    [ecg_row "A" 2 None "mV"; ecg_row "A" 3 None "mV"; ecg_row "B" 5 None "mV";
     ecg_row "A" 7 None "mV"; ecg_row "A" 8 None "mV"] (Some "A")
  = [ecg_row "A" 3 None "mV"; ecg_row "A" 7 None "mV"].
Proof.
  destruct (ecg_selection_is_inclusive_range ecg_days_3_to_7
              [ecg_row "A" 2 None "mV"; ecg_row "A" 3 None "mV"; ecg_row "B" 5 None "mV";
               ecg_row "A" 7 None "mV"; ecg_row "A" 8 None "mV"] "A" 3 7) as [E _];
    [reflexivity | reflexivity |].
  rewrite E. reflexivity.
Defined.

Lemma empty_date_range_gives_notice_witness :
  DataExplorer.create_static_plot
    (observations [obs_row "A" "X" 1 60; obs_row "B" "X" 2 70])
    (explorer (Some (10, 20)) None true, empty_world)
  = (Ok [], (explorer (Some (10, 20)) None true,
             {| stdout := ["No data for the selected date range."]; figs := []; shows := 0 |})).
Proof.
  apply (empty_date_range_gives_notice (explorer (Some (10, 20)) None true)
           (observations [obs_row "A" "X" 1 60; obs_row "B" "X" 2 70]) 10 20 empty_world);
    reflexivity.
Defined.

(** ** Symbolic execution of the generic visualiser *)

Lemma plot_data_based_on_condition_draws `{Float64} user_df user_id (w : World) :
  exists info : PlotInfo,
    plot_data_based_on_condition user_df user_id w =
    (Ok info, draw (condition_call user_df user_id) w).
Proof.
  rewrite plot_data_based_on_condition_run. cbv zeta. unfold condition_call.
  destruct (any (duplicated (map EFFECTIVE_DATE_TIME user_df))); eexists; reflexivity.
Qed.

Lemma series_of_condition_call `{Float64} user_df user_id :
  series_of (OnCurrentAxes (condition_call user_df user_id)) =
  Some ("User " +:+ fmt_id user_id, length user_df).
Proof.
  unfold condition_call.
  destruct (any (duplicated (map EFFECTIVE_DATE_TIME user_df))); cbn;
    now rewrite length_map.
Qed.

Lemma overlay_loop_run `{Float64} {Self} (self : Self) (df_loinc : list Row)
    (users_to_plot : list (option string)) out (f : Figure) rest n :
  for_each users_to_plot (fun user_id =>
      let user_df := List.filter (fun r => id_eqb (USER_ID r) user_id) df_loinc in
      on_snd (plot_data_based_on_condition user_df user_id) ;;; ret tt)
    (self, {| stdout := out; figs := f :: rest; shows := n |}) =
  (Ok tt,
   (self, {| stdout := out;
             figs := {| created_by := created_by f;
                        calls := calls f ++
                                 map (fun u => OnCurrentAxes (condition_call (rows_of df_loinc u) u))
                                     users_to_plot |} :: rest;
             shows := n |})).
Proof.
  revert f. induction users_to_plot as [|u us IH]; intros f.
  - cbn. rewrite app_nil_r. destruct f; reflexivity.
  - cbn [for_each map]. cbv zeta.
    destruct (plot_data_based_on_condition_draws (rows_of df_loinc u) u
                {| stdout := out; figs := f :: rest; shows := n |}) as [info Hdraw].
    rewrite bind_assoc.
    erewrite bind_ok by (apply on_snd_run; exact Hdraw). cbv beta.
    erewrite bind_ok by apply ret_run. cbv beta.
    unfold draw, set_figs. cbn [figs stdout shows].
    rewrite IH. unfold add_call. cbn [created_by calls].
    rewrite <- app_assoc. reflexivity.
Qed.

Lemma series_of_overlay `{Float64} (df_loinc : list Row) (users : list (option string)) :
  omap series_of
    (map (fun u => OnCurrentAxes (condition_call (rows_of df_loinc u) u)) users) =
  map (fun u => ("User " +:+ fmt_id u, length (rows_of df_loinc u))) users.
Proof.
  induction users as [|u us IH]; [reflexivity|].
  cbn - [series_of condition_call rows_of String.append].
  rewrite series_of_condition_call. f_equal. exact IH.
Qed.

Lemma iloc0_run `{Float64} {S} (r : Row) (frame : list Row) (col : Row -> string) (s : S) :
  iloc0 (r :: frame) col s = (Ok (col r), s).
Proof. reflexivity. Qed.

Lemma draw_head `{Float64} c out (f : Figure) rest n :
  draw c {| stdout := out; figs := f :: rest; shows := n |} =
  {| stdout := out; figs := add_call (OnCurrentAxes c) f :: rest; shows := n |}.
Proof. reflexivity. Qed.

Lemma plt_gcf_head `{Float64} out (f : Figure) rest n :
  plt_gcf {| stdout := out; figs := f :: rest; shows := n |} =
  (Ok (length rest), {| stdout := out; figs := f :: rest; shows := n |}).
Proof. reflexivity. Qed.

Ltac plt_step :=
  lazymatch goal with
  | |- bind (bind _ _) _ _ = _ => rewrite bind_assoc
  | |- bind self_ _ _ = _ => erewrite bind_ok by apply self_run
  | |- bind (ret _) _ _ = _ => erewrite bind_ok by apply ret_run
  | |- bind (iloc0 (_ :: _) _) _ _ = _ => erewrite bind_ok by apply iloc0_run
  | |- bind (on_snd (plt_call _)) _ _ = _ =>
      erewrite bind_ok by (apply on_snd_run; apply plt_call_run); rewrite draw_head
  | |- bind (on_snd plt_gcf) _ _ = _ =>
      erewrite bind_ok by (apply on_snd_run; apply plt_gcf_head)
  | |- bind (on_snd plt_show) _ _ = _ =>
      erewrite bind_ok by (apply on_snd_run; apply plt_show_run)
  | |- bind (on_snd (plt_figure _ _)) _ _ = _ =>
      erewrite bind_ok by (apply on_snd_run; apply plt_figure_run)
  | |- bind (on_snd (print _)) _ _ = _ =>
      erewrite bind_ok by (apply on_snd_run; apply print_run)
  end; cbv beta.

(** [plot_combined] on a non-empty group: one new figure, on which one
    series per listed identifier is drawn, in list order, before the
    decorations. *)
Lemma plot_combined_run `{Collaborators} (self : DataExplorer.t)
    (df_loinc : list Row) (users_to_plot : list (option string)) (loinc_code : string) :
  df_loinc <> [] ->
  exists fig : Figure,
    overlays fig df_loinc users_to_plot
    /\ forall w : World,
      DataExplorer.plot_combined df_loinc users_to_plot loinc_code (self, w) =
      (Ok (length (figs w)), (self, shown (set_figs (fig :: figs w) w))).
Proof.
  intros Hne. destruct df_loinc as [|r0 frame]; [congruence|]. clear Hne.
  eexists. split.
  2: { intros [out fs n]. unfold DataExplorer.plot_combined.
       plt_step. unfold set_figs. cbn [figs stdout shows].
       erewrite bind_ok by apply overlay_loop_run. cbv beta.
       cbn [created_by calls app].
       repeat plt_step.
       unfold shown, add_call. cbn [figs stdout shows created_by calls].
       rewrite <- !app_assoc. cbn [app]. reflexivity. }
  split; [reflexivity|]. eexists. split; reflexivity.
Qed.

Lemma overlays_series `{Float64} (fig : Figure) (group : list Row)
    (user_ids : list (option string)) :
  overlays fig group user_ids ->
  series fig = map (fun u => ("User " +:+ fmt_id u, length (rows_of group u))) user_ids.
Proof.
  intros (_ & decorations & Hcalls & Hdec). unfold series.
  rewrite Hcalls, omap_app, series_of_overlay, Hdec. apply app_nil_r.
Qed.

Ltac condition_step :=
  lazymatch goal with
  | |- bind (on_snd (plot_data_based_on_condition ?d ?u)) _ (_, ?w) = _ =>
      let info := fresh "info" in
      let Hd := fresh "Hd" in
      destruct (plot_data_based_on_condition_draws d u w) as [info Hd];
      erewrite bind_ok by (apply on_snd_run; exact Hd); rewrite draw_head; cbv beta
  end.

(** [plot_individual] for an identifier with rows in the group: one new
    figure with the identifier's series. *)
Lemma plot_individual_run `{Collaborators} (self : DataExplorer.t)
    (df_loinc : list Row) (user_id : string) (loinc_code : string) :
  rows_of df_loinc (Some user_id) <> [] ->
  exists fig : Figure,
    created_by fig = FigureCall (10, 6) (Some DEFAULT_DPI_VALUE)
    /\ series fig = [("User " +:+ user_id, length (rows_of df_loinc (Some user_id)))]
    /\ forall w : World,
      DataExplorer.plot_individual df_loinc (Some user_id) loinc_code (self, w) =
      (Ok (Some (length (figs w))), (self, shown (set_figs (fig :: figs w) w))).
Proof.
  intros Hne.
  destruct (rows_of df_loinc (Some user_id)) as [|r0 frame] eqn:Hrows; [congruence|].
  eexists. split; [|split].
  3: { intros [out fs n]. unfold DataExplorer.plot_individual. cbv zeta.
       change (List.filter (fun r : Row => id_eqb (USER_ID r) (Some user_id)) df_loinc)
         with (rows_of df_loinc (Some user_id)).
       rewrite Hrows.
       plt_step. unfold set_figs. cbn [figs stdout shows].
       repeat first [plt_step | condition_step].
       unfold shown, add_call. cbn [figs stdout shows created_by calls app].
       reflexivity. }
  - reflexivity.
  - unfold series. cbn - [series_of condition_call rows_of String.append].
    rewrite series_of_condition_call. reflexivity.
Qed.

Lemma plot_individual_absent `{Collaborators} (self : DataExplorer.t)
    (df_loinc : list Row) (user_id : string) (loinc_code : string) (w : World) :
  rows_of df_loinc (Some user_id) = [] ->
  DataExplorer.plot_individual df_loinc (Some user_id) loinc_code (self, w) =
  (Ok None, (self, say ("No data found for user ID " +:+ user_id +:+ " and LOINC code "
                        +:+ loinc_code +:+ ".") w)).
Proof.
  intros Hrows. unfold DataExplorer.plot_individual. cbv zeta.
  change (List.filter (fun r : Row => id_eqb (USER_ID r) (Some user_id)) df_loinc)
    with (rows_of df_loinc (Some user_id)).
  rewrite Hrows. plt_step. reflexivity.
Qed.

Lemma unique_from_In (seen l : list string) (x : string) :
  In x (unique_from seen l) -> In x l.
Proof.
  revert seen. induction l as [|y t IH]; intros seen; simpl; [tauto|].
  destruct (existsb (String.eqb y) seen).
  - intros Hx. right. exact (IH _ Hx).
  - intros [-> | Hx]; [now left | right; exact (IH _ Hx)].
Qed.

Lemma group_of_code_nonempty `{Float64} (frame : list Row) (loinc_code : string) :
  In loinc_code (unique (map LOINC_CODE frame)) -> group_of frame loinc_code <> [].
Proof.
  intros Hin. apply unique_from_In in Hin. apply in_map_iff in Hin as (r & Hr & Hin).
  assert (Hg : In r (group_of frame loinc_code)).
  { apply List.filter_In. split; [exact Hin|]. apply String.eqb_eq. exact Hr. }
  intros E. rewrite E in Hg. destruct Hg.
Qed.

Lemma combined_groups_run `{Collaborators} (self : DataExplorer.t)
    (frame : list Row) (user_ids : list (option string)) (loinc_codes : list string) :
  DataExplorer.combine_plots self = true ->
  (forall loinc_code, In loinc_code loinc_codes -> group_of frame loinc_code <> []) ->
  exists new : list Figure,
    Forall2 (fun fig loinc_code => overlays fig (group_of frame loinc_code) user_ids)
            new loinc_codes
    /\ forall (acc : list FigureHandle) (w : World),
      for_acc loinc_codes acc (fun loinc_code figures =>
          let df_loinc :=
            List.filter (fun r => String.eqb (LOINC_CODE r) loinc_code) frame in
          self <- self_ ;;
          if DataExplorer.combine_plots self then
            fig <- DataExplorer.plot_combined df_loinc user_ids loinc_code ;;
            ret (figures ++ [fig])
          else
            for_acc user_ids figures (fun user_id figures =>
              r <- DataExplorer.plot_individual df_loinc user_id loinc_code ;;
              match r with
              | Some fig => ret (figures ++ [fig])
              | None => ret figures
              end)) (self, w) =
      (Ok (acc ++ seq (length (figs w)) (length loinc_codes)),
       (self, {| stdout := stdout w;
                 figs := rev new ++ figs w;
                 shows := (shows w + length loinc_codes)%nat |})).
Proof.
  intros Hcombine. induction loinc_codes as [|code codes IH]; intros Hgroups.
  - exists []. split; [constructor|].
    intros acc [out fs n]. cbn. rewrite app_nil_r, Nat.add_0_r. reflexivity.
  - destruct IH as (new & Hnew & Hrun).
    { intros c Hc. apply Hgroups. now right. }
    destruct (plot_combined_run self (group_of frame code) user_ids code)
      as (fig & Hoverlays & Hfig).
    { apply Hgroups. now left. }
    exists (fig :: new). split; [constructor; [exact Hoverlays | exact Hnew]|].
    intros acc w. cbn [for_acc]. cbv zeta.
    rewrite bind_assoc. erewrite bind_ok by apply self_run. cbv beta.
    rewrite Hcombine.
    rewrite bind_assoc.
    change (List.filter (fun r : Row => (LOINC_CODE r =? code)%string) frame)
      with (group_of frame code).
    erewrite bind_ok by apply Hfig. cbv beta.
    erewrite bind_ok by apply ret_run. cbv beta.
    rewrite Hrun. destruct w as [out fs n]. unfold shown, set_figs.
    cbn [figs stdout shows length rev seq].
    rewrite <- !app_assoc. cbn [app].
    replace (n + S (length codes))%nat with (S n + length codes)%nat by lia.
    reflexivity.
Qed.

(** In combine mode a render call draws one figure per code group of the
    date-filtered dataset, each overlaying one series per plotted
    identifier. *)
Lemma create_static_plot_combined `{Collaborators}
    (self : DataExplorer.t) (fhir_dataframe : FHIRDataFrame) :
  DataExplorer.combine_plots self = true ->
  df (date_filtered self fhir_dataframe) <> [] ->
  let frame := df (date_filtered self fhir_dataframe) in
  let loinc_codes := unique (map LOINC_CODE frame) in
  let user_ids := resolved_user_ids self fhir_dataframe in
  exists new : list Figure,
    Forall2 (fun fig loinc_code => overlays fig (group_of frame loinc_code) user_ids)
            new loinc_codes
    /\ forall w : World,
      DataExplorer.create_static_plot fhir_dataframe (self, w) =
      (Ok (seq (length (figs w)) (length loinc_codes)),
       (self, {| stdout := stdout w;
                 figs := rev new ++ figs w;
                 shows := (shows w + length loinc_codes)%nat |})).
Proof.
  intros Hcombine Hne. cbv zeta.
  remember (df (date_filtered self fhir_dataframe)) as frame eqn:Hframe.
  destruct (combined_groups_run self frame (resolved_user_ids self fhir_dataframe)
              (unique (map LOINC_CODE frame)) Hcombine)
    as (new & Hnew & Hrun).
  { intros c Hc. now apply group_of_code_nonempty. }
  exists new. split; [exact Hnew|]. intros w.
  unfold DataExplorer.create_static_plot. cbv zeta.
  erewrite bind_ok by apply self_run. cbv beta.
  erewrite bind_ok by apply self_run. cbv beta.
  change (match DataExplorer.start_date self with
          | Some sd => match DataExplorer.end_date self with
                       | Some ed => select_data_by_dates fhir_dataframe sd ed
                       | None => fhir_dataframe
                       end
          | None => fhir_dataframe
          end) with (date_filtered self fhir_dataframe).
  rewrite <- Hframe.
  destruct frame as [|r0 rest]; [congruence|].
  apply (Hrun [] w).
Qed.

(** ** Combine mode *)

Lemma date_filtered_no_range `{Collaborators} (self : DataExplorer.t)
    (fhir_dataframe : FHIRDataFrame) :
  DataExplorer.start_date self = None \/ DataExplorer.end_date self = None ->
  date_filtered self fhir_dataframe = fhir_dataframe.
Proof.
  unfold date_filtered. intros [-> | ->]; [reflexivity|].
  destruct (DataExplorer.start_date self); reflexivity.
Qed.

(** C6, as stated, fails: on a group with rows of "A" only, the combined
    figure for the identifiers "A" and "B" carries a series labelled
    "User B". *)
Lemma combined_figure_overlays_absent_identifier :
  ~ (forall (self : @DataExplorer.t QFloat) (df_loinc : list Row)
            (users_to_plot : list (option string)) (loinc_code : string)
            (w w' : World) (h : FigureHandle) (fig : Figure),
        df_loinc <> [] ->
        DataExplorer.plot_combined df_loinc users_to_plot loinc_code (self, w)
          = (Ok h, (self, w')) ->
        figure_at w' h = Some fig ->
        map fst (series fig) =
        map (fun u => "User " +:+ fmt_id u)
            (List.filter (fun u => negb (bool_decide (rows_of df_loinc u = [])))
                         users_to_plot)).
Proof.
  intros Hclaim.
  specialize (Hclaim (explorer None (Some (IdList [Some "A"; Some "B"])) true)
                [obs_row "A" "X" 1 60] [Some "A"; Some "B"] "X"
                empty_world _ 0%nat _ ltac:(discriminate) eq_refl eq_refl).
  vm_compute in Hclaim. discriminate Hclaim.
Qed.

(** C6, amended: in combine mode a render call on a dataset whose
    date-filtered rows are not empty returns one figure per code group, in
    order of first appearance of the codes; on the figure of a group one
    series is drawn for every identifier of the plotted list, in list order,
    from the identifier's rows in the group, before the decorations.  No
    identifier is skipped: for an identifier without rows in the group the
    series is a bar series with no points, labelled with the identifier. *)
Theorem combined_figure_overlays_every_listed_identifier `{Collaborators}
    (self : DataExplorer.t) (fhir_dataframe : FHIRDataFrame) :
  DataExplorer.combine_plots self = true ->
  df (date_filtered self fhir_dataframe) <> [] ->
  let frame := df (date_filtered self fhir_dataframe) in
  let loinc_codes := unique (map LOINC_CODE frame) in
  let user_ids := resolved_user_ids self fhir_dataframe in
  (exists new : list Figure,
      Forall2 (fun fig loinc_code => overlays fig (group_of frame loinc_code) user_ids)
              new loinc_codes
      /\ forall w : World,
        DataExplorer.create_static_plot fhir_dataframe (self, w) =
        (Ok (seq (length (figs w)) (length loinc_codes)),
         (self, {| stdout := stdout w;
                   figs := rev new ++ figs w;
                   shows := (shows w + length loinc_codes)%nat |})))
  /\ (forall (group : list Row) (u : option string),
        rows_of group u = [] ->
        condition_call (rows_of group u) u =
        Bar [] [] ("User " +:+ fmt_id u) "black" (flit 1.5)).
Proof.
  intros Hcombine Hne frame loinc_codes user_ids. split.
  - apply (create_static_plot_combined self fhir_dataframe Hcombine Hne).
  - intros group u ->. reflexivity.
Qed.

Lemma combined_figure_overlays_every_listed_identifier_witness :
  exists fig : Figure,
    DataExplorer.create_static_plot (observations [obs_row "A" "X" 1 60])
      (explorer None (Some (IdList [Some "A"; Some "B"])) true, empty_world)
    = (Ok [0%nat], (explorer None (Some (IdList [Some "A"; Some "B"])) true,
                    {| stdout := []; figs := [fig]; shows := 1 |}))
    /\ series fig = [("User A", 1%nat); ("User B", 0%nat)].
Proof.
  destruct (combined_figure_overlays_every_listed_identifier
              (explorer None (Some (IdList [Some "A"; Some "B"])) true)
              (observations [obs_row "A" "X" 1 60]))
    as [(new & Hnew & Hrun) _]; [reflexivity | discriminate |].
  inversion Hnew as [|fig code figs' codes' Hfig Hrest]; subst.
  inversion Hrest; subst.
  exists fig. split.
  - apply (Hrun empty_world).
  - rewrite (overlays_series _ _ _ Hfig). reflexivity.
Defined.

(** ** One code, two identifiers *)

Lemma unique_from_const (c : string) (l seen : list string) :
  (forall x, In x l -> x = c) ->
  unique_from seen l =
  if existsb (String.eqb c) seen then [] else match l with [] => [] | _ => [c] end.
Proof.
  revert seen. induction l as [|x t IH]; intros seen Hall.
  - cbn. now destruct (existsb _ seen).
  - assert (x = c) as -> by (apply Hall; now left).
    cbn [unique_from]. destruct (existsb (String.eqb c) seen) eqn:E.
    + rewrite IH by (intros y Hy; apply Hall; now right). now rewrite E.
    + rewrite IH by (intros y Hy; apply Hall; now right).
      cbn [existsb]. rewrite String.eqb_refl. reflexivity.
Qed.

Lemma unique_const (c : string) (l : list string) :
  l <> [] -> (forall x, In x l -> x = c) -> unique l = [c].
Proof.
  intros Hne Hall. unfold unique. rewrite (unique_from_const c) by exact Hall.
  cbn. destruct l; [congruence | reflexivity].
Qed.

Lemma group_of_all `{Float64} (frame : list Row) (c : string) :
  (forall r, In r frame -> LOINC_CODE r = c) -> group_of frame c = frame.
Proof.
  unfold group_of. induction frame as [|r t IH]; intros Hall; [reflexivity|].
  cbn [List.filter]. rewrite (Hall r) by now left. rewrite String.eqb_refl.
  f_equal. apply IH. intros r' Hr'. apply Hall. now right.
Qed.

Lemma rows_of_present `{Float64} (frame : list Row) (u : string) :
  (exists r, In r frame /\ USER_ID r = u) -> rows_of frame (Some u) <> [].
Proof.
  intros (r & Hin & Hu) E.
  assert (Hr : In r (rows_of frame (Some u))).
  { apply List.filter_In. split; [exact Hin|]. cbn. now apply String.eqb_eq. }
  rewrite E in Hr. destruct Hr.
Qed.

Lemma rows_of_absent `{Float64} (frame : list Row) (u : string) :
  (forall r, In r frame -> USER_ID r <> u) -> rows_of frame (Some u) = [].
Proof.
  intros Hall. unfold rows_of. induction frame as [|r t IH]; [reflexivity|].
  cbn [List.filter id_eqb]. destruct (String.eqb_spec (USER_ID r) u) as [E|_].
  - exfalso. apply (Hall r); [now left | exact E].
  - apply IH. intros r' Hr'. apply Hall. now right.
Qed.

(** The render call in separate mode on a dataset with the single code
    [loinc_code], for two identifiers. *)
Lemma create_static_plot_separate_two `{Collaborators}
    (self : DataExplorer.t) (fhir_dataframe : FHIRDataFrame)
    (loinc_code : string) (a b : string) (w : World) :
  DataExplorer.combine_plots self = false ->
  DataExplorer.user_ids self = Some (IdList [Some a; Some b]) ->
  df (date_filtered self fhir_dataframe) <> [] ->
  (forall r, In r (df (date_filtered self fhir_dataframe)) -> LOINC_CODE r = loinc_code) ->
  DataExplorer.create_static_plot fhir_dataframe (self, w) =
  (ra <- DataExplorer.plot_individual (df (date_filtered self fhir_dataframe))
           (Some a) loinc_code ;;
   rb <- DataExplorer.plot_individual (df (date_filtered self fhir_dataframe))
           (Some b) loinc_code ;;
   ret (match ra with Some fig => [fig] | None => [] end
        ++ match rb with Some fig => [fig] | None => [] end)) (self, w).
Proof.
  intros Hcombine Hids Hne Hcodes.
  unfold DataExplorer.create_static_plot. cbv zeta.
  erewrite bind_ok by apply self_run. cbv beta.
  erewrite bind_ok by apply self_run. cbv beta.
  change (match DataExplorer.start_date self with
          | Some sd => match DataExplorer.end_date self with
                       | Some ed => select_data_by_dates fhir_dataframe sd ed
                       | None => fhir_dataframe
                       end
          | None => fhir_dataframe
          end) with (date_filtered self fhir_dataframe).
  rewrite Hids.
  remember (df (date_filtered self fhir_dataframe)) as frame eqn:Hframe.
  rewrite (unique_const loinc_code (map LOINC_CODE frame)).
  2: { destruct frame; [congruence | discriminate]. }
  2: { intros x Hx. apply in_map_iff in Hx as (r & <- & Hr). now apply Hcodes. }
  destruct frame as [|r0 rest] eqn:Hshape; [congruence|]. rewrite <- Hshape in *.
  cbn [for_acc].
  change (List.filter (fun r : Row => (LOINC_CODE r =? loinc_code)%string) frame)
    with (group_of frame loinc_code).
  rewrite (group_of_all frame loinc_code Hcodes).
  rewrite bind_assoc. erewrite bind_ok by apply self_run. cbv beta.
  rewrite Hcombine. cbn [for_acc].
  unfold bind, ret.
  destruct (DataExplorer.plot_individual frame (Some a) loinc_code (self, w))
    as [[[ha|]|e] s1]; [| |reflexivity].
  - destruct (DataExplorer.plot_individual frame (Some b) loinc_code s1)
      as [[[hb|]|e] s2]; reflexivity.
  - destruct (DataExplorer.plot_individual frame (Some b) loinc_code s1)
      as [[[hb|]|e] s2]; reflexivity.
Qed.

Lemma figure_at_head `{Float64} (f : Figure) (old : list Figure) out n :
  figure_at {| stdout := out; figs := f :: old; shows := n |} (length old) = Some f.
Proof.
  pose proof (figure_at_new [f] old out n 0) as E.
  rewrite Nat.add_0_r in E. exact E.
Qed.

Lemma figure_at_two `{Float64} (fa fb : Figure) (old : list Figure) out n :
  figure_at {| stdout := out; figs := fb :: fa :: old; shows := n |} (length old) = Some fa
  /\ figure_at {| stdout := out; figs := fb :: fa :: old; shows := n |} (S (length old))
     = Some fb.
Proof.
  pose proof (figure_at_new [fa; fb] old out n 0) as E0.
  pose proof (figure_at_new [fa; fb] old out n 1) as E1.
  rewrite Nat.add_0_r in E0. rewrite Nat.add_1_r in E1. split; assumption.
Qed.

(** C7: let the rows that reach grouping (the dataset itself when no date
    range is set) all carry the code "X".  If they include rows of "A" and
    rows of "B", the render call returns in combine mode exactly one handle,
    that of the one figure it has created, on which the rows of every
    identifier it plots are overlaid; in separate mode with the identifiers
    ["A"; "B"] it returns exactly two handles, that of a new figure with the
    series of "A" and that of a new figure with the series of "B", and
    prints no notice.  If in separate mode one of the two identifiers has no
    row, the call returns the handle of the single figure it has created,
    which carries the series of the other identifier, and prints the notice
    "No data found for user ID ... and LOINC code X.".  In every case the
    figures that existed before are left as they were and each new figure
    has been shown once. *)
Theorem one_code_two_identifiers `{Collaborators}
    (self : DataExplorer.t) (fhir_dataframe : FHIRDataFrame) (w : World) :
  let frame := df (date_filtered self fhir_dataframe) in
  let has u := exists r, In r frame /\ USER_ID r = u in
  let lacks u := frame <> [] /\ forall r, In r frame -> USER_ID r <> u in
  let separate :=
    DataExplorer.combine_plots self = false
    /\ DataExplorer.user_ids self = Some (IdList [Some "A"; Some "B"]) in
  let run := DataExplorer.create_static_plot fhir_dataframe (self, w) in
  let n := length (figs w) in
  let one (fig : Figure) (notices : list string) : World :=
    {| stdout := stdout w ++ notices; figs := fig :: figs w; shows := S (shows w) |} in
  let two (figA figB : Figure) : World :=
    {| stdout := stdout w; figs := figB :: figA :: figs w; shows := S (S (shows w)) |} in
  (forall r, In r frame -> LOINC_CODE r = "X") ->
  (DataExplorer.start_date self = None \/ DataExplorer.end_date self = None ->
     frame = df fhir_dataframe)
  /\ (has "A" -> has "B" -> DataExplorer.combine_plots self = true ->
      exists fig : Figure,
        run = (Ok [n], (self, {| stdout := stdout w; figs := fig :: figs w;
                                 shows := S (shows w) |}))
        /\ figure_at (one fig []) n = Some fig
        /\ overlays fig frame (resolved_user_ids self fhir_dataframe)
        /\ series fig = map (fun u => ("User " +:+ fmt_id u, length (rows_of frame u)))
                            (resolved_user_ids self fhir_dataframe))
  /\ (has "A" -> has "B" -> separate ->
      exists figA figB : Figure,
        run = (Ok [n; S n], (self, two figA figB))
        /\ figure_at (two figA figB) n = Some figA
        /\ figure_at (two figA figB) (S n) = Some figB
        /\ individual_figure figA frame (Some "A")
        /\ individual_figure figB frame (Some "B"))
  /\ (has "A" -> lacks "B" -> separate ->
      exists figA : Figure,
        run = (Ok [n], (self, one figA ["No data found for user ID B and LOINC code X."]))
        /\ figure_at (one figA ["No data found for user ID B and LOINC code X."]) n
           = Some figA
        /\ individual_figure figA frame (Some "A"))
  /\ (lacks "A" -> has "B" -> separate ->
      exists figB : Figure,
        run = (Ok [n], (self, one figB ["No data found for user ID A and LOINC code X."]))
        /\ figure_at (one figB ["No data found for user ID A and LOINC code X."]) n
           = Some figB
        /\ individual_figure figB frame (Some "B")).
Proof.
  intros frame has lacks separate run n one two Hcodes.
  assert (Hne : forall u, has u -> frame <> []).
  { intros u (r & Hin & _) E. rewrite E in Hin. destruct Hin. }
  split; [|split; [|split; [|split]]].
  - intros Hrange. unfold frame. now rewrite date_filtered_no_range.
  - intros HA _ Hcombine.
    destruct (create_static_plot_combined self fhir_dataframe Hcombine (Hne _ HA))
      as (new & Hnew & Hrun).
    assert (Hx : unique (map LOINC_CODE frame) = ["X"]).
    { apply unique_const.
      - specialize (Hne _ HA). destruct frame; [congruence | discriminate].
      - intros x Hx. apply in_map_iff in Hx as (r & <- & Hr). now apply Hcodes. }
    fold frame in Hnew. rewrite Hx in Hnew.
    inversion Hnew as [|fig code new' codes' Hfig Hrest]; subst.
    inversion Hrest; subst.
    rewrite (group_of_all frame "X" Hcodes) in Hfig.
    exists fig. split; [|split; [|split]].
    + unfold run. rewrite Hrun. fold frame. rewrite Hx.
      cbn [length seq rev app]. rewrite Nat.add_1_r. reflexivity.
    + apply figure_at_head.
    + exact Hfig.
    + apply overlays_series. exact Hfig.
  - intros HA HB (Hcombine & Hids).
    destruct (plot_individual_run self frame "A" "X" (rows_of_present _ _ HA))
      as (figA & HcA & HsA & HrunA).
    destruct (plot_individual_run self frame "B" "X" (rows_of_present _ _ HB))
      as (figB & HcB & HsB & HrunB).
    exists figA, figB. split; [|split; [|split; [|split]]].
    + unfold run.
      rewrite (create_static_plot_separate_two self fhir_dataframe "X" "A" "B" w
                 Hcombine Hids (Hne _ HA) Hcodes).
      fold frame.
      erewrite bind_ok by apply HrunA. cbv beta.
      erewrite bind_ok by apply HrunB. cbv beta.
      destruct w as [out fs k]. reflexivity.
    + apply figure_at_two.
    + apply figure_at_two.
    + split; [exact HcA | exact HsA].
    + split; [exact HcB | exact HsB].
  - intros HA (_ & HB) (Hcombine & Hids).
    destruct (plot_individual_run self frame "A" "X" (rows_of_present _ _ HA))
      as (figA & HcA & HsA & HrunA).
    exists figA. split; [|split].
    + unfold run.
      rewrite (create_static_plot_separate_two self fhir_dataframe "X" "A" "B" w
                 Hcombine Hids (Hne _ HA) Hcodes).
      fold frame.
      erewrite bind_ok by apply HrunA. cbv beta.
      erewrite bind_ok by (apply plot_individual_absent; apply rows_of_absent; exact HB).
      cbv beta. destruct w as [out fs k]. reflexivity.
    + apply figure_at_head.
    + split; [exact HcA | exact HsA].
  - intros (Hframe & HA) HB (Hcombine & Hids).
    destruct (plot_individual_run self frame "B" "X" (rows_of_present _ _ HB))
      as (figB & HcB & HsB & HrunB).
    exists figB. split; [|split].
    + unfold run.
      rewrite (create_static_plot_separate_two self fhir_dataframe "X" "A" "B" w
                 Hcombine Hids Hframe Hcodes).
      fold frame.
      erewrite bind_ok by (apply plot_individual_absent; apply rows_of_absent; exact HA).
      cbv beta.
      erewrite bind_ok by apply HrunB. cbv beta.
      destruct w as [out fs k]. reflexivity.
    + apply figure_at_head.
    + split; [exact HcB | exact HsB].
Qed.

Lemma one_code_two_identifiers_witness :
  (exists fig : Figure,
      DataExplorer.create_static_plot
        (observations [obs_row "A" "X" 1 60; obs_row "B" "X" 2 70])
        (explorer None None true, empty_world)
      = (Ok [0%nat], (explorer None None true,
                      {| stdout := []; figs := [fig]; shows := 1 |}))
      /\ series fig = [("User A", 1%nat); ("User B", 1%nat)])
  /\ (exists figA figB : Figure,
      DataExplorer.create_static_plot
        (observations [obs_row "A" "X" 1 60; obs_row "B" "X" 2 70])
        (explorer None (Some (IdList [Some "A"; Some "B"])) false, empty_world)
      = (Ok [0%nat; 1%nat],
         (explorer None (Some (IdList [Some "A"; Some "B"])) false,
          {| stdout := []; figs := [figB; figA]; shows := 2 |}))
      /\ series figA = [("User A", 1%nat)]
      /\ series figB = [("User B", 1%nat)])
  /\ (exists figA : Figure,
      DataExplorer.create_static_plot
        (observations [obs_row "A" "X" 1 60; obs_row "A" "X" 2 70])
        (explorer None (Some (IdList [Some "A"; Some "B"])) false, empty_world)
      = (Ok [0%nat],
         (explorer None (Some (IdList [Some "A"; Some "B"])) false,
          {| stdout := ["No data found for user ID B and LOINC code X."];
             figs := [figA]; shows := 1 |}))
      /\ series figA = [("User A", 2%nat)]).
Proof.
  assert (Hcodes : forall r : Row,
             In r [obs_row "A" "X" 1 60; obs_row "B" "X" 2 70] -> LOINC_CODE r = "X").
  { intros r [<- | [<- | []]]; reflexivity. }
  assert (HA : exists r : Row,
             In r [obs_row "A" "X" 1 60; obs_row "B" "X" 2 70] /\ USER_ID r = "A").
  { exists (obs_row "A" "X" 1 60). split; [now left | reflexivity]. }
  assert (HB : exists r : Row,
             In r [obs_row "A" "X" 1 60; obs_row "B" "X" 2 70] /\ USER_ID r = "B").
  { exists (obs_row "B" "X" 2 70). split; [right; now left | reflexivity]. }
  split; [|split].
  - pose proof (one_code_two_identifiers (explorer None None true)
                  (observations [obs_row "A" "X" 1 60; obs_row "B" "X" 2 70])
                  empty_world Hcodes) as (_ & Hcombined & _).
    destruct (Hcombined HA HB eq_refl) as (fig & Hrun & _ & _ & Hseries).
    exists fig. split; [exact Hrun | exact Hseries].
  - pose proof (one_code_two_identifiers
                  (explorer None (Some (IdList [Some "A"; Some "B"])) false)
                  (observations [obs_row "A" "X" 1 60; obs_row "B" "X" 2 70])
                  empty_world Hcodes) as (_ & _ & Hseparate & _).
    destruct (Hseparate HA HB (conj eq_refl eq_refl))
      as (figA & figB & Hrun & _ & _ & (_ & HsA) & (_ & HsB)).
    exists figA, figB. split; [exact Hrun|]. split; [exact HsA | exact HsB].
  - assert (Hcodes' : forall r : Row,
               In r [obs_row "A" "X" 1 60; obs_row "A" "X" 2 70] -> LOINC_CODE r = "X").
    { intros r [<- | [<- | []]]; reflexivity. }
    pose proof (one_code_two_identifiers
                  (explorer None (Some (IdList [Some "A"; Some "B"])) false)
                  (observations [obs_row "A" "X" 1 60; obs_row "A" "X" 2 70])
                  empty_world Hcodes') as (_ & _ & _ & Hfewer & _).
    destruct Hfewer as (figA & Hrun & _ & _ & HsA).
    + exists (obs_row "A" "X" 1 60). split; [now left | reflexivity].
    + split; [discriminate|]. intros r [<- | [<- | []]]; discriminate.
    + split; reflexivity.
    + exists figA. split; [exact Hrun | exact HsA].
Defined.

(** ** The standalone summary writes to the caller's data frame *)

Lemma keeps_get {S1 S2} : keeps_self (S1:=S1) (S2:=S2) get.
Proof. intros s. reflexivity. Qed.

Lemma keeps_bound_of `{Pandas} {S1 S2} (s : string) :
  keeps_self (S1:=S1) (S2:=S2) (bound_of s).
Proof. unfold bound_of. destruct (to_datetime_str s); [apply keeps_ret | apply keeps_raise]. Qed.

#[export] Hint Resolve keeps_get keeps_bound_of : frame.

Lemma to_datetime_length `{Pandas} (cells : list Cell) (column : list Z) :
  to_datetime cells = Ok column -> length column = length cells.
Proof.
  revert column. induction cells as [|c rest IH]; intros column; cbn [to_datetime].
  - intros [= <-]. reflexivity.
  - destruct (match c with CellText s => to_datetime_str s | CellTime t => Some t end);
      [|discriminate].
    destruct (to_datetime rest) as [ts|]; [|discriminate].
    intros [= <-]. cbn. f_equal. now apply IH.
Qed.

Lemma setitem_columns (frame : DataFrame) (column : list Z) :
  length column = length frame ->
  map EffectiveDateTime (setitem_EffectiveDateTime frame column) = map CellTime column
  /\ map UserId (setitem_EffectiveDateTime frame column) = map UserId frame
  /\ map LoincCode (setitem_EffectiveDateTime frame column) = map LoincCode frame
  /\ map other_columns (setitem_EffectiveDateTime frame column) = map other_columns frame.
Proof.
  revert column. induction frame as [|r frame IH]; intros [|t column] Hlen;
    try discriminate; [repeat split|].
  injection Hlen as Hlen. destruct (IH column Hlen) as (E1 & E2 & E3 & E4).
  cbn [setitem_EffectiveDateTime map EffectiveDateTime UserId LoincCode other_columns].
  rewrite E1, E2, E3, E4. repeat split.
Qed.

Lemma setitem_already_parsed `{Pandas} (frame : DataFrame) (column : list Z) :
  to_datetime (map EffectiveDateTime frame) = Ok column ->
  (forall c, In c (map EffectiveDateTime frame) -> exists t, c = CellTime t) ->
  setitem_EffectiveDateTime frame column = frame.
Proof.
  revert column. induction frame as [|r frame IH]; intros column Hparse Hall.
  - cbn in Hparse. injection Hparse as <-. reflexivity.
  - cbn [map to_datetime] in Hparse.
    destruct (Hall (EffectiveDateTime r)) as [t Ht]; [now left|].
    rewrite Ht in Hparse.
    destruct (to_datetime (map EffectiveDateTime frame)) as [ts|] eqn:Hrest; [|discriminate].
    injection Hparse as <-. cbn [setitem_EffectiveDateTime].
    rewrite (IH ts eq_refl) by (intros c Hc; apply Hall; now right).
    destruct r as [c u l o]. cbn in Ht. subst c. reflexivity.
Qed.

Lemma summary_frame_after `{Float64} `{Pandas} (caller : DataFrame) (w : World)
    (start_date end_date : option string) (user_ids : option (string + list string))
    (column : list Z) :
  to_datetime (map EffectiveDateTime caller) = Ok column ->
  fst (snd (explore_total_records_number start_date end_date user_ids (caller, w)))
  = setitem_EffectiveDateTime caller column.
Proof.
  intros Hparse. unfold explore_total_records_number.
  erewrite bind_ok by reflexivity. cbv beta. cbn [fst].
  rewrite Hparse. erewrite bind_ok by apply try_run. cbv beta.
  erewrite bind_ok by reflexivity. cbv beta. cbn [fst snd].
  match goal with
  | |- fst (snd (?m ?s)) = _ =>
      assert (Hk : keeps_self m); [frame | exact (Hk s)]
  end.
Qed.

(** C10, as stated, fails: a data frame whose timestamps are already parsed
    is the same after the call as before it. *)
Lemma summary_leaves_parsed_frame_as_it_was :
  ~ (forall (caller : DataFrame) (w : @World QFloat)
            (start_date end_date : option string)
            (user_ids : option (string + list string)),
        fst (snd (@explore_total_records_number QFloat RefPandas
                    start_date end_date user_ids (caller, w)))
        <> caller).
Proof.
  intros Hclaim.
  apply (Hclaim [raw_row (CellTime 5) "A" "X"] empty_world None None None).
  apply summary_frame_after with (column := [5]). reflexivity.
Qed.

(** C10, amended: when the timestamp column of the caller's data frame can be
    parsed, the summary function assigns the parsed column to the caller's
    own data frame before anything else, and neither row selection reaches
    it: at the end of the call, whatever the date bounds and identifiers and
    whether or not plotting succeeds, the caller's frame has all its rows,
    with the timestamp column holding the parsed timestamps and every other
    column as before.  So the caller's frame differs from what it was as soon
    as one timestamp was text, and is the same as before when every
    timestamp was already parsed.  When the column cannot be parsed the call
    raises before the assignment and the caller's frame is untouched.  The
    call returns no value. *)
Theorem summary_overwrites_callers_timestamps `{Float64} `{Pandas}
    (caller : DataFrame) (w : World)
    (start_date end_date : option string) (user_ids : option (string + list string)) :
  let run := explore_total_records_number start_date end_date user_ids (caller, w) in
  let after := fst (snd run) in
  (forall column : list Z,
      to_datetime (map EffectiveDateTime caller) = Ok column ->
      after = setitem_EffectiveDateTime caller column
      /\ length after = length caller
      /\ map EffectiveDateTime after = map CellTime column
      /\ map UserId after = map UserId caller
      /\ map LoincCode after = map LoincCode caller
      /\ map other_columns after = map other_columns caller
      /\ ((exists s, In (CellText s) (map EffectiveDateTime caller)) -> after <> caller)
      /\ ((forall c, In c (map EffectiveDateTime caller) -> exists t, c = CellTime t) ->
          after = caller))
  /\ (forall e : Exn,
      to_datetime (map EffectiveDateTime caller) = Raise e ->
      run = (Raise e, (caller, w))).
Proof.
  intros run after. split.
  - intros column Hparse.
    assert (Hafter : after = setitem_EffectiveDateTime caller column).
    { unfold after, run. now apply summary_frame_after. }
    pose proof (to_datetime_length _ _ Hparse) as Hlen. rewrite length_map in Hlen.
    destruct (setitem_columns caller column Hlen) as (E1 & E2 & E3 & E4).
    rewrite Hafter. repeat split; try assumption.
    + rewrite <- (length_map EffectiveDateTime), E1, length_map. exact Hlen.
    + intros (s & Hs) E. rewrite E in E1. rewrite E1 in Hs.
      apply in_map_iff in Hs as (t & Ht & _). discriminate Ht.
    + intros Hall. now apply setitem_already_parsed.
  - intros e Hparse. unfold run, explore_total_records_number.
    erewrite bind_ok by reflexivity. cbv beta. cbn [fst].
    rewrite Hparse. reflexivity.
Qed.

Lemma summary_overwrites_callers_timestamps_witness :
  fst (snd (explore_total_records_number (Some "3") (Some "7") (Some (inl "A"))
              ([raw_row (CellText "5") "A" "X"; raw_row (CellText "9") "B" "Y"],
               empty_world)))
  = [raw_row (CellTime 5) "A" "X"; raw_row (CellTime 9) "B" "Y"]
  /\ fst (snd (explore_total_records_number (Some "3") (Some "7") (Some (inl "A"))
                 ([raw_row (CellText "5") "A" "X"; raw_row (CellText "9") "B" "Y"],
                  empty_world)))
     <> [raw_row (CellText "5") "A" "X"; raw_row (CellText "9") "B" "Y"].
Proof.
  destruct (summary_overwrites_callers_timestamps
              [raw_row (CellText "5") "A" "X"; raw_row (CellText "9") "B" "Y"]
              empty_world (Some "3") (Some "7") (Some (inl "A"))) as [Hok _].
  destruct (Hok [5; 9] eq_refl) as (Hafter & _ & _ & _ & _ & _ & Hdiff & _).
  split.
  - exact Hafter.
  - apply Hdiff. exists "5". now left.
Defined.

(** ** Distinct values and partitions *)

Lemma existsb_eqb_In (x : string) (seen : list string) :
  existsb (String.eqb x) seen = true <-> In x seen.
Proof.
  rewrite existsb_exists. split.
  - intros (y & Hy & E). apply String.eqb_eq in E. now subst.
  - intros Hx. exists x. split; [assumption | apply String.eqb_refl].
Qed.

Lemma unique_from_spec (seen l : list string) :
  NoDup (unique_from seen l)
  /\ forall x, In x (unique_from seen l) <-> In x l /\ ~ In x seen.
Proof.
  revert seen. induction l as [|y t IH]; intros seen; cbn [unique_from].
  - split; [constructor | intros x; cbn; tauto].
  - destruct (existsb (String.eqb y) seen) eqn:E.
    + apply existsb_eqb_In in E. destruct (IH seen) as [Hnd Hin].
      split; [exact Hnd|]. intros x. rewrite Hin. cbn.
      split; [tauto|]. intros [[-> | Hx] Hs]; tauto.
    + assert (Hy : ~ In y seen).
      { intros Hy. apply existsb_eqb_In in Hy. congruence. }
      destruct (IH (y :: seen)) as [Hnd Hin]. split.
      * apply NoDup_cons. split; [|exact Hnd].
        rewrite list_elem_of_In, Hin. cbn. tauto.
      * intros x. cbn. rewrite Hin. cbn.
        destruct (String.eqb_spec y x) as [-> | Hne]; tauto.
Qed.

Lemma unique_NoDup (l : list string) : NoDup (unique l).
Proof. apply unique_from_spec. Qed.

Lemma unique_In (l : list string) (x : string) : In x (unique l) <-> In x l.
Proof. unfold unique. rewrite (proj2 (unique_from_spec [] l)). cbn. tauto. Qed.

(** Every element falls under exactly one key of a duplicate-free list of
    keys that covers it. *)
Lemma count_by_key {A} (key : A -> string) (keys : list string) (l : list A) :
  NoDup keys ->
  (forall a, In a l -> In (key a) keys) ->
  sum_list_with (fun k => length (List.filter (fun a => String.eqb (key a) k) l)) keys
  = length l.
Proof.
  intros Hnd. induction l as [|a l IH]; intros Hcover.
  - clear. induction keys as [|k ks IHk]; [reflexivity|].
    cbn [sum_list_with List.filter length]. exact IHk.
  - assert (Hone : forall ks, NoDup ks ->
              sum_list_with (fun k => length (List.filter (fun a => String.eqb (key a) k) (a :: l))) ks
              = ((if bool_decide (key a ∈ ks) then 1 else 0)
                 + sum_list_with (fun k => length (List.filter (fun a => String.eqb (key a) k) l)) ks)%nat).
    { clear. induction ks as [|k ks IHk]; intros Hnd; [reflexivity|].
      apply NoDup_cons in Hnd as [Hk Hnd].
      cbn [sum_list_with]. rewrite (IHk Hnd). cbn [List.filter].
      destruct (String.eqb_spec (key a) k) as [E | Hne].
      - subst k. rewrite (bool_decide_eq_true_2 (key a ∈ key a :: ks)) by now left.
        rewrite (bool_decide_eq_false_2 (key a ∈ ks)) by exact Hk. cbn. lia.
      - destruct (bool_decide (key a ∈ ks)) eqn:Hb.
        + apply bool_decide_eq_true in Hb.
          rewrite (bool_decide_eq_true_2 (key a ∈ k :: ks)) by now right. lia.
        + apply bool_decide_eq_false in Hb.
          rewrite (bool_decide_eq_false_2 (key a ∈ k :: ks)); [lia|].
          intros Hin. apply elem_of_cons in Hin as [E | Hin]; [now apply Hne | now apply Hb]. }
    rewrite (Hone keys Hnd), IH by (intros b Hb; apply Hcover; now right).
    rewrite bool_decide_eq_true_2 by (apply list_elem_of_In, Hcover; now left). reflexivity.
Qed.

(** ** Separate mode *)

Lemma rows_of_None `{Float64} (frame : list Row) : rows_of frame None = [].
Proof. unfold rows_of. induction frame as [|r t IH]; [reflexivity | exact IH]. Qed.

Lemma plot_individual_none `{Collaborators} (self : DataExplorer.t)
    (df_loinc : list Row) (loinc_code : string) (w : World) :
  DataExplorer.plot_individual df_loinc None loinc_code (self, w) =
  (Ok None, (self, say "User ID must be provided for individual plots." w)).
Proof. unfold DataExplorer.plot_individual. plt_step. reflexivity. Qed.

Lemma separate_loop_run `{Collaborators} (self : DataExplorer.t)
    (df_loinc : list Row) (loinc_code : string) (user_ids : list (option string)) :
  exists new : list Figure,
    Forall2 (fun fig u => individual_figure fig df_loinc u)
            new (List.filter (has_rows df_loinc) user_ids)
    /\ forall (acc : list FigureHandle) (w : World),
      for_acc user_ids acc (fun user_id figures =>
          r <- DataExplorer.plot_individual df_loinc user_id loinc_code ;;
          match r with
          | Some fig => ret (figures ++ [fig])
          | None => ret figures
          end) (self, w) =
      (Ok (acc ++ seq (length (figs w)) (length new)),
       (self, {| stdout := stdout w ++ omap (individual_notice df_loinc loinc_code) user_ids;
                 figs := rev new ++ figs w;
                 shows := (shows w + length new)%nat |})).
Proof.
  induction user_ids as [|u us (new & Hnew & Hrun)].
  - exists []. split; [constructor|]. intros acc [out fs n]. cbn.
    rewrite !app_nil_r, Nat.add_0_r. reflexivity.
  - destruct u as [u|].
    + destruct (rows_of df_loinc (Some u)) as [|r0 rest] eqn:Hrows.
      * exists new. split.
        { cbn [List.filter]. unfold has_rows at 1. rewrite Hrows. exact Hnew. }
        intros acc w. cbn [for_acc]. rewrite bind_assoc.
        erewrite bind_ok by (apply plot_individual_absent; exact Hrows). cbv beta.
        erewrite bind_ok by apply ret_run. cbv beta.
        rewrite Hrun. destruct w as [out fs n]. unfold say.
        cbn [figs stdout shows omap list_omap]. unfold individual_notice at 2.
        rewrite Hrows. rewrite <- app_assoc. reflexivity.
      * destruct (plot_individual_run self df_loinc u loinc_code) as (fig & Hc & Hs & Hfig).
        { rewrite Hrows. discriminate. }
        exists (fig :: new). split.
        { cbn [List.filter]. unfold has_rows at 1. rewrite Hrows.
          constructor; [split; assumption | exact Hnew]. }
        intros acc w. cbn [for_acc]. rewrite bind_assoc.
        erewrite bind_ok by apply Hfig. cbv beta.
        erewrite bind_ok by apply ret_run. cbv beta.
        rewrite Hrun. destruct w as [out fs n]. unfold shown, set_figs.
        cbn [figs stdout shows length rev seq omap list_omap].
        unfold individual_notice at 2. rewrite Hrows.
        rewrite <- !app_assoc. cbn [app].
        replace (n + S (length new))%nat with (S n + length new)%nat by lia.
        reflexivity.
    + exists new. split.
      { cbn [List.filter]. unfold has_rows at 1. rewrite rows_of_None. exact Hnew. }
      intros acc w. cbn [for_acc]. rewrite bind_assoc.
      erewrite bind_ok by apply plot_individual_none. cbv beta.
      erewrite bind_ok by apply ret_run. cbv beta.
      rewrite Hrun. destruct w as [out fs n]. unfold say.
      cbn [figs stdout shows omap list_omap individual_notice].
      rewrite <- app_assoc. reflexivity.
Qed.

Lemma separate_groups_run `{Collaborators} (self : DataExplorer.t)
    (frame : list Row) (user_ids : list (option string)) (loinc_codes : list string) :
  DataExplorer.combine_plots self = false ->
  exists new : list Figure,
    Forall2 (fun fig cu => individual_figure fig (group_of frame (fst cu)) (snd cu))
            new (plotted_pairs frame loinc_codes user_ids)
    /\ forall (acc : list FigureHandle) (w : World),
      for_acc loinc_codes acc (fun loinc_code figures =>
          let df_loinc :=
            List.filter (fun r => String.eqb (LOINC_CODE r) loinc_code) frame in
          self <- self_ ;;
          if DataExplorer.combine_plots self then
            fig <- DataExplorer.plot_combined df_loinc user_ids loinc_code ;;
            ret (figures ++ [fig])
          else
            for_acc user_ids figures (fun user_id figures =>
              r <- DataExplorer.plot_individual df_loinc user_id loinc_code ;;
              match r with
              | Some fig => ret (figures ++ [fig])
              | None => ret figures
              end)) (self, w) =
      (Ok (acc ++ seq (length (figs w)) (length new)),
       (self, {| stdout := stdout w ++ separate_notices frame loinc_codes user_ids;
                 figs := rev new ++ figs w;
                 shows := (shows w + length new)%nat |})).
Proof.
  intros Hsep. induction loinc_codes as [|code codes (new & Hnew & Hrun)].
  - exists []. split; [constructor|]. intros acc [out fs n]. cbn.
    rewrite !app_nil_r, Nat.add_0_r. reflexivity.
  - destruct (separate_loop_run self (group_of frame code) code user_ids)
      as (new1 & Hnew1 & Hrun1).
    exists (new1 ++ new). split.
    { unfold plotted_pairs. cbn [map concat]. apply Forall2_app; [|exact Hnew].
      clear -Hnew1. induction Hnew1; cbn [map]; constructor; assumption. }
    intros acc w. cbn [for_acc]. cbv zeta.
    rewrite bind_assoc. erewrite bind_ok by apply self_run. cbv beta.
    rewrite Hsep.
    change (List.filter (fun r : Row => (LOINC_CODE r =? code)%string) frame)
      with (group_of frame code).
    erewrite bind_ok by apply Hrun1. cbv beta.
    rewrite Hrun. destruct w as [out fs n].
    cbn [figs stdout shows]. unfold separate_notices. cbn [map concat].
    rewrite !length_app, rev_app_distr, <- !app_assoc, seq_app.
    rewrite length_rev.
    replace (length new1 + length fs)%nat with (length fs + length new1)%nat by lia.
    replace (n + length new1 + length new)%nat with (n + (length new1 + length new))%nat by lia.
    reflexivity.
Qed.

(** In separate mode a render call draws one figure for every (code group,
    identifier) pair that has rows, code by code, and prints one notice for
    every other pair. *)
Lemma create_static_plot_separate `{Collaborators}
    (self : DataExplorer.t) (fhir_dataframe : FHIRDataFrame) :
  DataExplorer.combine_plots self = false ->
  df (date_filtered self fhir_dataframe) <> [] ->
  let frame := df (date_filtered self fhir_dataframe) in
  let loinc_codes := unique (map LOINC_CODE frame) in
  let user_ids := resolved_user_ids self fhir_dataframe in
  exists new : list Figure,
    Forall2 (fun fig cu => individual_figure fig (group_of frame (fst cu)) (snd cu))
            new (plotted_pairs frame loinc_codes user_ids)
    /\ forall w : World,
      DataExplorer.create_static_plot fhir_dataframe (self, w) =
      (Ok (seq (length (figs w)) (length new)),
       (self, {| stdout := stdout w ++ separate_notices frame loinc_codes user_ids;
                 figs := rev new ++ figs w;
                 shows := (shows w + length new)%nat |})).
Proof.
  intros Hsep Hne. cbv zeta.
  remember (df (date_filtered self fhir_dataframe)) as frame eqn:Hframe.
  destruct (separate_groups_run self frame (resolved_user_ids self fhir_dataframe)
              (unique (map LOINC_CODE frame)) Hsep)
    as (new & Hnew & Hrun).
  exists new. split; [exact Hnew|]. intros w.
  unfold DataExplorer.create_static_plot. cbv zeta.
  erewrite bind_ok by apply self_run. cbv beta.
  erewrite bind_ok by apply self_run. cbv beta.
  change (match DataExplorer.start_date self with
          | Some sd => match DataExplorer.end_date self with
                       | Some ed => select_data_by_dates fhir_dataframe sd ed
                       | None => fhir_dataframe
                       end
          | None => fhir_dataframe
          end) with (date_filtered self fhir_dataframe).
  rewrite <- Hframe.
  destruct frame as [|r0 rest]; [congruence|].
  apply (Hrun [] w).
Qed.



(** X2: in combine mode the render call returns exactly one figure per
    distinct code of the date-filtered dataset: the codes form a
    duplicate-free list holding precisely the codes that occur, and the
    figure of each overlays the listed identifiers on the rows of that
    code. *)
Theorem combine_mode_one_figure_per_distinct_code `{Collaborators}
    (self : DataExplorer.t) (fhir_dataframe : FHIRDataFrame) (w : World) :
  DataExplorer.combine_plots self = true ->
  let frame := df (date_filtered self fhir_dataframe) in
  exists (loinc_codes : list string) (new : list Figure) (w' : World),
    NoDup loinc_codes
    /\ (forall c, In c loinc_codes <-> exists r, In r frame /\ LOINC_CODE r = c)
    /\ DataExplorer.create_static_plot fhir_dataframe (self, w) =
         (Ok (seq (length (figs w)) (length loinc_codes)), (self, w'))
    /\ figs w' = rev new ++ figs w
    /\ Forall2 (fun fig c => overlays fig (group_of frame c)
                                      (resolved_user_ids self fhir_dataframe))
               new loinc_codes.
Proof.
  intros Hmode frame.
  assert (Hcodes : forall c, In c (unique (map LOINC_CODE frame)) <->
                             exists r, In r frame /\ LOINC_CODE r = c).
  { intros c. rewrite unique_In, in_map_iff. split; intros (r & A & B); exists r; tauto. }
  destruct frame as [|r0 rest] eqn:Hframe.
  - exists [], [], (say "No data for the selected date range." w).
    split; [constructor|]. split; [exact Hcodes|].
    split; [apply create_static_plot_empty; exact Hframe|].
    split; [reflexivity | constructor].
  - assert (Hne : df (date_filtered self fhir_dataframe) <> []).
    { fold frame. rewrite Hframe. discriminate. }
    destruct (create_static_plot_combined self fhir_dataframe Hmode Hne)
      as (new & Hnew & Hrun).
    fold frame in Hnew, Hrun. rewrite Hframe in Hnew, Hrun.
    eexists _, new, _. split; [apply unique_NoDup|]. split; [exact Hcodes|].
    split; [apply Hrun|]. split; [reflexivity | exact Hnew].
Qed.

Lemma figure_or_notice `{Float64} (df_loinc : list Row) (loinc_code : string)
    (user_ids : list (option string)) :
  (length (List.filter (has_rows df_loinc) user_ids)
   + length (omap (individual_notice df_loinc loinc_code) user_ids))%nat
  = length user_ids.
Proof.
  induction user_ids as [|u us IH]; [reflexivity|].
  cbn [List.filter omap list_omap]. unfold has_rows at 1, individual_notice at 1.
  destruct u as [u|].
  - destruct (rows_of df_loinc (Some u)); cbn [length]; lia.
  - rewrite rows_of_None. cbn [length]. lia.
Qed.

Lemma plotted_pairs_In `{Float64} (frame : list Row) (loinc_codes : list string)
    (user_ids : list (option string)) (c : string) (u : option string) :
  In (c, u) (plotted_pairs frame loinc_codes user_ids) <->
  In c loinc_codes /\ In u user_ids /\ rows_of (group_of frame c) u <> [].
Proof.
  unfold plotted_pairs. rewrite in_concat. split.
  - intros (l & Hl & Hin). apply in_map_iff in Hl as (c' & <- & Hc').
    apply in_map_iff in Hin as (u' & [= <- <-] & Hu').
    apply List.filter_In in Hu' as [Hu' Hrows]. unfold has_rows in Hrows.
    repeat split; try assumption.
    destruct (rows_of (group_of frame c') u'); [discriminate | discriminate].
  - intros (Hc & Hu & Hrows).
    exists (map (pair c) (List.filter (has_rows (group_of frame c)) user_ids)). split.
    + apply in_map_iff. now exists c.
    + apply in_map. apply List.filter_In. split; [exact Hu|].
      unfold has_rows. destruct (rows_of (group_of frame c) u); [congruence | reflexivity].
Qed.

(** X3: in separate mode, on a dataset whose date-filtered rows are not
    empty, the render call handles every (code, identifier) pair, code by
    code and identifier by identifier: a pair with rows gets a figure of its
    own carrying the series of that identifier, every other pair gets one
    printed notice and no figure; so figures and notices together number
    codes times identifiers. *)
Theorem separate_mode_figure_or_notice_per_pair `{Collaborators}
    (self : DataExplorer.t) (fhir_dataframe : FHIRDataFrame) (w : World) :
  DataExplorer.combine_plots self = false ->
  df (date_filtered self fhir_dataframe) <> [] ->
  let frame := df (date_filtered self fhir_dataframe) in
  let loinc_codes := unique (map LOINC_CODE frame) in
  let user_ids := resolved_user_ids self fhir_dataframe in
  exists (new : list Figure) (notices : list string) (w' : World),
    DataExplorer.create_static_plot fhir_dataframe (self, w) =
      (Ok (seq (length (figs w)) (length new)), (self, w'))
    /\ stdout w' = stdout w ++ notices
    /\ figs w' = rev new ++ figs w
    /\ Forall2 (fun fig cu => individual_figure fig (group_of frame (fst cu)) (snd cu))
               new (plotted_pairs frame loinc_codes user_ids)
    /\ (forall c u, In (c, u) (plotted_pairs frame loinc_codes user_ids) <->
                    In c loinc_codes /\ In u user_ids /\ rows_of (group_of frame c) u <> [])
    /\ (length new + length notices = length loinc_codes * length user_ids)%nat.
Proof.
  intros Hmode Hne frame loinc_codes user_ids.
  destruct (create_static_plot_separate self fhir_dataframe Hmode Hne)
    as (new & Hnew & Hrun).
  fold frame loinc_codes user_ids in Hnew, Hrun.
  eexists new, _, _. split; [apply Hrun|]. split; [reflexivity|].
  split; [reflexivity|]. split; [exact Hnew|]. split; [apply plotted_pairs_In|].
  rewrite (Forall2_length _ _ _ Hnew). unfold plotted_pairs, separate_notices.
  clear. induction loinc_codes as [|c cs IH]; [reflexivity|].
  cbn [map concat length]. rewrite !length_app, length_map, Nat.mul_succ_l.
  pose proof (figure_or_notice (group_of frame c) c user_ids). lia.
Qed.

Lemma sum_rows_of_users `{Float64} (group : list Row) (users : list string) :
  NoDup users ->
  (forall r, In r group -> In (USER_ID r) users) ->
  sum_list_with snd
    (map (fun u => ("User " +:+ fmt_id u, length (rows_of group u))) (map Some users))
  = length group.
Proof.
  intros Hnd Hcover. rewrite <- (count_by_key USER_ID users group Hnd Hcover).
  clear. induction users as [|u us IH]; [reflexivity|].
  cbn [map sum_list_with snd]. rewrite IH. reflexivity.
Qed.

(** X4: with no identifier list, no effective date range and combine mode
    (the configuration of a new visualiser), the render call draws every
    row of the dataset exactly once: the numbers of points of all series of
    all returned figures add up to the number of rows. *)
Theorem default_render_draws_every_row_once `{Collaborators}
    (self : DataExplorer.t) (fhir_dataframe : FHIRDataFrame) (w : World) :
  DataExplorer.user_ids self = None ->
  DataExplorer.start_date self = None \/ DataExplorer.end_date self = None ->
  DataExplorer.combine_plots self = true ->
  exists (new : list Figure) (w' : World),
    DataExplorer.create_static_plot fhir_dataframe (self, w) =
      (Ok (seq (length (figs w)) (length new)), (self, w'))
    /\ figs w' = rev new ++ figs w
    /\ sum_list_with (fun fig => sum_list_with snd (series fig)) new
       = length (df fhir_dataframe).
Proof.
  intros Hids Hrange Hmode.
  pose proof (date_filtered_no_range self fhir_dataframe Hrange) as Hfilt.
  destruct (df fhir_dataframe) as [|r0 rest] eqn:Hframe.
  - exists [], (say "No data for the selected date range." w).
    split; [|split; reflexivity].
    apply create_static_plot_empty. now rewrite Hfilt.
  - assert (Hne : df (date_filtered self fhir_dataframe) <> []).
    { rewrite Hfilt, Hframe. discriminate. }
    destruct (create_static_plot_combined self fhir_dataframe Hmode Hne)
      as (new & Hnew & Hrun).
    rewrite Hfilt in Hnew, Hrun. unfold resolved_user_ids in Hnew. rewrite Hids in Hnew.
    rewrite <- Hframe. set (frame := df fhir_dataframe) in *.
    eexists new, _.
    split; [rewrite Hrun; now rewrite (Forall2_length _ _ _ Hnew)|].
    split; [reflexivity|].
    { rewrite <- (count_by_key LOINC_CODE (unique (map LOINC_CODE frame)) frame).
      2: apply unique_NoDup.
      2: { intros r Hr. apply unique_In. now apply in_map. }
      clear -Hnew. induction Hnew as [|fig c new codes Hfig _ IH]; [reflexivity|].
      cbn [sum_list_with]. rewrite IH. f_equal.
      rewrite (overlays_series _ _ _ Hfig).
      apply sum_rows_of_users; [apply unique_NoDup|].
      intros r Hr. apply unique_In. apply in_map.
      apply List.filter_In in Hr. tauto. }
Qed.

(** ** The setters *)

Lemma parse_bound_run `{Collaborators} {S} (s : option string) (st : S) :
  parse_bound s st = (bound_value s, st).
Proof.
  unfold parse_bound, bound_value. destruct s as [[|c txt]|]; try reflexivity.
  destruct (strptime_ymd (String c txt)); reflexivity.
Qed.

Lemma set_date_range_run `{Collaborators}
    (start_date end_date : option string) :
  (forall (self : DataExplorer.t) (w : World),
      DataExplorer.set_date_range start_date end_date (self, w) =
      match bound_value start_date, bound_value end_date with
      | Raise e, _ => (Raise e, (self, w))
      | Ok sd, Raise e => (Raise e, (with_start_date sd self, w))
      | Ok sd, Ok ed => (Ok tt, (with_end_date ed (with_start_date sd self), w))
      end)
  /\ (forall (self : ECGExplorer.t) (w : World),
      ECGExplorer.set_date_range start_date end_date (self, w) =
      match bound_value start_date, bound_value end_date with
      | Raise e, _ => (Raise e, (self, w))
      | Ok sd, Raise e => (Raise e, (ecg_with_start_date sd self, w))
      | Ok sd, Ok ed => (Ok tt, (ecg_with_end_date ed (ecg_with_start_date sd self), w))
      end).
Proof.
  split; intros self w.
  - unfold DataExplorer.set_date_range, bind.
    rewrite parse_bound_run. destruct (bound_value start_date) as [sd|e]; [|reflexivity].
    cbn [DataExplorer.update modify fst snd]. rewrite parse_bound_run.
    destruct (bound_value end_date) as [ed|e]; reflexivity.
  - unfold ECGExplorer.set_date_range, bind.
    rewrite parse_bound_run. destruct (bound_value start_date) as [sd|e]; [|reflexivity].
    cbn [ECGExplorer.update modify fst snd]. rewrite parse_bound_run.
    destruct (bound_value end_date) as [ed|e]; reflexivity.
Qed.

(** X5: [set_date_range] of either visualiser sets the start bound before it
    reads the end bound.  When both texts are accepted (an absent or empty
    text clears its bound) both bounds are replaced and nothing else
    changes.  When the start text is no date the call raises with the
    configuration untouched.  When the start text is accepted and the end
    text is no date the call raises with the start bound already replaced
    and the end bound still the old one. *)
Theorem set_date_range_assigns_start_before_end `{Collaborators}
    (start_date end_date : option string) :
  (forall (self : DataExplorer.t) (w : World),
      DataExplorer.set_date_range start_date end_date (self, w) =
      match bound_value start_date, bound_value end_date with
      | Raise e, _ => (Raise e, (self, w))
      | Ok sd, Raise e => (Raise e, (with_start_date sd self, w))
      | Ok sd, Ok ed => (Ok tt, (with_end_date ed (with_start_date sd self), w))
      end)
  /\ (forall (self : ECGExplorer.t) (w : World),
      ECGExplorer.set_date_range start_date end_date (self, w) =
      match bound_value start_date, bound_value end_date with
      | Raise e, _ => (Raise e, (self, w))
      | Ok sd, Raise e => (Raise e, (ecg_with_start_date sd self, w))
      | Ok sd, Ok ed => (Ok tt, (ecg_with_end_date ed (ecg_with_start_date sd self), w))
      end).
Proof. exact (set_date_range_run start_date end_date). Qed.

(** ** The waveform render call *)







(** ** Payloads that are not read *)







(** X9: a row without payload still gets its figure: the text "No ECG data
    available for this recording." is put at the centre of each of the three
    axes, nothing is plotted, and the figure is shown and returned. *)
Theorem missing_payload_gives_placeholder_figure `{Collaborators}
    (self : ECGExplorer.t) (row : Row) (user_id : option string) (w : World) :
  ECG_RECORDING row = None ->
  let placeholder := Text (flit 0.5) (flit 0.5) "No ECG data available for this recording."
                          "center" "center" "transAxes" in
  ECGExplorer.plot_recording row user_id (self, w) =
  (Ok (length (figs w)),
   (self, {| stdout := stdout w;
             figs := {| created_by := SubplotsCall 3 1 (15, 6) true;
                        calls := [OnAxes 0 placeholder; OnAxes 1 placeholder;
                                  OnAxes 2 placeholder] |} :: figs w;
             shows := S (shows w) |})).
Proof.
  intros Hrec placeholder. destruct w as [out fs n].
  unfold ECGExplorer.plot_recording.
  erewrite bind_ok by (apply on_snd_run; apply plt_subplots_run).
  cbv beta iota zeta. rewrite Hrec.
  unfold set_figs. cbn [figs stdout shows].
  cbn [for_each seq].
  rewrite !bind_assoc.
  erewrite bind_ok by (apply getitem_run; reflexivity). cbv beta.
  erewrite bind_ok by (apply on_snd_run; apply ax_call_head). cbv beta.
  rewrite !bind_assoc.
  erewrite bind_ok by (apply getitem_run; reflexivity). cbv beta.
  erewrite bind_ok by (apply on_snd_run; apply ax_call_head). cbv beta.
  rewrite !bind_assoc.
  erewrite bind_ok by (apply getitem_run; reflexivity). cbv beta.
  erewrite bind_ok by (apply on_snd_run; apply ax_call_head). cbv beta.
  erewrite bind_ok by apply ret_run. cbv beta.
  erewrite bind_ok by (apply on_snd_run; apply plt_show_run). cbv beta.
  reflexivity.
Qed.

Lemma split_from_blank (s : string) :
  (forall c, In c (list_ascii_of_string s) -> is_space c = true) ->
  split_from None s = [].
Proof.
  induction s as [|c s IH]; intros Hblank; [reflexivity|].
  cbn [split_from]. rewrite (Hblank c) by now left.
  apply IH. intros c' Hc'. apply Hblank. now right.
Qed.

(** X10: a recording of fewer than three samples is dropped whole: its three
    parts are empty.  In particular a payload that is empty or made of
    white space only is read as no samples, without error, and the row's
    figure carries three empty waveforms. *)
Theorem short_recording_plots_nothing `{Float64} :
  (forall ecg_array : list float,
      (length ecg_array < 3)%nat -> ecg_parts ecg_array = [[]; []; []])
  /\ (forall (row : Row) (recording : string),
        ECG_RECORDING row = Some recording ->
        (forall c, In c (list_ascii_of_string recording) -> is_space c = true) ->
        expected_waveforms row = Ok [(0%nat, []); (1%nat, []); (2%nat, [])]).
Proof.
  split.
  - intros a Hlen. rewrite ecg_parts_take_drop.
    rewrite (Nat.div_small (length a) 3 Hlen). reflexivity.
  - intros row recording Hrec Hblank. unfold expected_waveforms, split.
    rewrite Hrec, (split_from_blank recording Hblank). cbn [np_array_float].
    unfold to_millivolt. destruct (String.eqb _ _); reflexivity.
Qed.

(** ** Identifiers of the waveform visualiser *)

Lemma user_data_of_None `{Float64} (self : ECGExplorer.t) (frame : list Row) :
  ECGExplorer.user_data_of self frame None = [].
Proof.
  unfold ECGExplorer.user_data_of.
  destruct (ECGExplorer.start_date self), (ECGExplorer.end_date self);
    induction frame as [|r t IH]; try reflexivity; exact IH.
Qed.

(** X11: [set_user_ids] of the waveform visualiser always stores a list: a
    single identifier is wrapped, and [None] is stored as the list holding
    [None].  So after [set_user_ids(None)] a render call does not go back
    to all identifiers of the dataset: whatever the dataset, it prints the
    notice for the identifier "None" and returns no figure. *)
Theorem ecg_set_user_ids_none_selects_nothing `{Collaborators}
    (self : ECGExplorer.t) (fhir_dataframe : FHIRDataFrame) (w : World) :
  (forall ids : option UserIds,
      ECGExplorer.set_user_ids ids (self, w) =
      (Ok tt, (ecg_with_user_ids
                 (Some match ids with
                       | Some (IdList l) => l
                       | Some (IdScalar u) => [Some u]
                       | None => [None]
                       end) self, w)))
  /\ (ECGExplorer.set_user_ids None ;;; ECGExplorer.plot_ecg_subplots fhir_dataframe)
       (self, w) =
     (Ok [], (ecg_with_user_ids (Some [None]) self,
              say "No ECG data found for user ID: None in the given date range" w)).
Proof.
  split; [reflexivity|].
  erewrite bind_ok by reflexivity. cbv beta.
  unfold ECGExplorer.plot_ecg_subplots. cbv zeta.
  erewrite bind_ok by apply self_run. cbv beta.
  cbn [ECGExplorer.user_ids ecg_with_user_ids for_acc].
  rewrite bind_assoc. erewrite bind_ok by apply self_run. cbv beta.
  rewrite user_data_of_None.
  rewrite bind_assoc.
  erewrite bind_ok by (apply on_snd_run; apply print_run). cbv beta.
  reflexivity.
Qed.

(** ** Methods called on their own *)


(** X13: the plotting methods that can be called on their own
    ([plot_combined], [plot_individual], [plot_single_user_ecg],
    [_plot_single_lead_ecg]) never write the configuration of their
    visualiser, however they end. *)
Theorem plotting_methods_keep_configuration `{Collaborators} :
  (forall (self : DataExplorer.t) df_loinc users_to_plot loinc_code (w : World),
      fst (snd (DataExplorer.plot_combined df_loinc users_to_plot loinc_code (self, w)))
      = self)
  /\ (forall (self : DataExplorer.t) df_loinc user_id loinc_code (w : World),
      fst (snd (DataExplorer.plot_individual df_loinc user_id loinc_code (self, w)))
      = self)
  /\ (forall (self : ECGExplorer.t) user_data user_id (w : World),
      fst (snd (ECGExplorer.plot_single_user_ecg user_data user_id (self, w))) = self)
  /\ (forall (self : ECGExplorer.t) ecg sample_rate title ax (w : World),
      fst (snd (ECGExplorer._plot_single_lead_ecg ecg sample_rate title ax (self, w)))
      = self).
Proof.
  repeat split; intros.
  - apply (plot_combined_keeps_self df_loinc users_to_plot loinc_code (self, w)).
  - apply (plot_individual_keeps_self df_loinc user_id loinc_code (self, w)).
  - apply (plot_single_user_ecg_keeps_self user_data user_id (self, w)).
  - apply (_plot_single_lead_ecg_keeps_self ecg sample_rate title ax (self, w)).
Qed.

(** X14: [plot_combined] called on a group without rows raises an
    [IndexError] when it reads the quantity name for the title; by then it
    has created its figure and drawn an empty bar series for every listed
    identifier, and the figure is neither shown nor returned. *)
Theorem plot_combined_on_empty_group_raises `{Collaborators}
    (self : DataExplorer.t) (users_to_plot : list (option string))
    (loinc_code : string) (w : World) :
  DataExplorer.plot_combined [] users_to_plot loinc_code (self, w) =
  (Raise (IndexError "single positional indexer is out-of-bounds"),
   (self, set_figs
            ({| created_by := FigureCall (10, 6) (Some DEFAULT_DPI_VALUE);
                calls := map (fun u => OnCurrentAxes
                                         (Bar [] [] ("User " +:+ fmt_id u) "black" (flit 1.5)))
                             users_to_plot |} :: figs w) w)).
Proof.
  destruct w as [out fs n]. unfold DataExplorer.plot_combined.
  plt_step. unfold set_figs. cbn [figs stdout shows].
  erewrite bind_ok by apply overlay_loop_run. cbv beta.
  cbn [created_by calls app].
  plt_step. reflexivity.
Qed.

(** ** Date ranges with one bound *)

(** X15: a date range is only applied when both bounds are set.  After
    [set_date_range] with a start date and no end date (absent or empty
    text), the generic visualiser filters no row out although its titles
    read "from <start> to None", and the waveform visualiser selects the
    rows of an identifier whatever their date. *)
Theorem one_sided_date_range_filters_nothing `{Collaborators}
    (start_date end_date : option string) (d : date) :
  bound_value start_date = Ok (Some d) ->
  bound_value end_date = Ok None ->
  (forall (self self' : DataExplorer.t) (w w' : World),
      DataExplorer.set_date_range start_date end_date (self, w) = (Ok tt, (self', w')) ->
      (forall fhir_dataframe, date_filtered self' fhir_dataframe = fhir_dataframe)
      /\ DataExplorer.date_range_title self' = "from " +:+ date_str d +:+ " to None")
  /\ (forall (self self' : ECGExplorer.t) (w w' : World),
      ECGExplorer.set_date_range start_date end_date (self, w) = (Ok tt, (self', w')) ->
      forall frame user_id,
        ECGExplorer.user_data_of self' frame user_id = rows_of frame user_id).
Proof.
  intros Hs He.
  destruct (set_date_range_run start_date end_date) as [Hgen Hecg].
  split.
  - intros self self' w w' Hrun. rewrite Hgen, Hs, He in Hrun.
    injection Hrun as <- <-. split; [|reflexivity].
    intros fdf. apply date_filtered_no_range. now right.
  - intros self self' w w' Hrun. rewrite Hecg, Hs, He in Hrun.
    injection Hrun as <- <-. reflexivity.
Qed.

(** ** The table of counts *)

Lemma insert_sorted_perm (x : string) (l : list string) :
  insert_sorted x l ≡ₚ x :: l.
Proof.
  induction l as [|y t IH]; [reflexivity|].
  cbn [insert_sorted]. destruct (String.leb x y); [reflexivity|].
  rewrite IH. apply perm_swap.
Qed.

Lemma sort_strings_perm (l : list string) : sort_strings l ≡ₚ l.
Proof.
  induction l as [|x t IH]; [reflexivity|].
  unfold sort_strings in *. cbn [foldr]. rewrite insert_sorted_perm. now rewrite IH.
Qed.

Lemma insert_sorted_sorted (x : string) (l : list string) :
  Sorted (fun a b => String.leb a b = true) l ->
  Sorted (fun a b => String.leb a b = true) (insert_sorted x l).
Proof.
  induction l as [|y t IH]; intros Hs.
  - repeat constructor.
  - cbn [insert_sorted]. destruct (String.leb x y) eqn:E.
    + constructor; [exact Hs | constructor; exact E].
    + apply Sorted_inv in Hs as [Hs Hhd]. constructor; [now apply IH|].
      assert (Hyx : String.leb y x = true).
      { destruct (String.leb_total x y) as [Hxy | Hyx]; [congruence | exact Hyx]. }
      destruct t as [|z t']; cbn [insert_sorted].
      * constructor. exact Hyx.
      * destruct (String.leb x z); constructor; [exact Hyx|].
        now apply HdRel_inv in Hhd.
Qed.

Lemma sort_strings_sorted (l : list string) :
  Sorted (fun a b => String.leb a b = true) (sort_strings l).
Proof.
  induction l as [|x t IH]; [constructor|].
  unfold sort_strings in *. cbn [foldr]. now apply insert_sorted_sorted.
Qed.

Lemma sorted_keys (l : list string) :
  let keys := sort_strings (unique l) in
  NoDup keys /\ (forall x, In x keys <-> In x l)
  /\ Sorted (fun a b => String.leb a b = true) keys.
Proof.
  cbv zeta. split; [|split].
  - rewrite sort_strings_perm. apply unique_NoDup.
  - intros x. rewrite <- (unique_In l x). split; apply Permutation_in;
      [apply sort_strings_perm | symmetry; apply sort_strings_perm].
  - apply sort_strings_sorted.
Qed.

(** X16: the table of counts that the summary draws has one line per
    distinct code and, on every line, one entry per distinct identifier of
    the counted rows, both in increasing order; an entry is the number of
    rows with that code and that identifier; so the entries add up to the
    number of counted rows. *)
Theorem group_counts_table (frame : DataFrame) :
  let codes := map fst (group_counts frame) in
  (NoDup codes /\ (forall c, In c codes <-> exists r, In r frame /\ LoincCode r = c)
   /\ Sorted (fun a b => String.leb a b = true) codes)
  /\ (exists users : list string,
        NoDup users /\ (forall u, In u users <-> exists r, In r frame /\ UserId r = u)
        /\ Sorted (fun a b => String.leb a b = true) users
        /\ forall c line, In (c, line) (group_counts frame) ->
             line = map (fun u => (u, length (List.filter
                                    (fun r => String.eqb (LoincCode r) c
                                              && String.eqb (UserId r) u) frame))) users)
  /\ sum_list_with (fun line => sum_list_with snd (snd line)) (group_counts frame)
     = length frame.
Proof.
  cbv zeta.
  destruct (sorted_keys (map LoincCode frame)) as (Hcnd & Hcin & Hcs).
  destruct (sorted_keys (map UserId frame)) as (Hund & Huin & Hus).
  assert (Hfst : map fst (group_counts frame) = sort_strings (unique (map LoincCode frame))).
  { unfold group_counts. rewrite map_map. cbn [fst]. apply map_id. }
  split; [|split].
  - rewrite Hfst. split; [exact Hcnd|]. split; [|exact Hcs].
    intros c. rewrite Hcin, in_map_iff. split; intros (r & A & B); exists r; tauto.
  - exists (sort_strings (unique (map UserId frame))).
    split; [exact Hund|]. split; [|split; [exact Hus|]].
    + intros u. rewrite Huin, in_map_iff. split; intros (r & A & B); exists r; tauto.
    + intros c line Hin. unfold group_counts in Hin.
      apply in_map_iff in Hin as (c' & [= <- <-] & _). reflexivity.
  - unfold group_counts.
    set (codes := sort_strings (unique (map LoincCode frame))) in *.
    set (users := sort_strings (unique (map UserId frame))) in *.
    rewrite <- (count_by_key LoincCode codes frame Hcnd).
    2: { intros r Hr. apply Hcin. now apply in_map. }
    generalize codes. intros cs. induction cs as [|c cs IH]; [reflexivity|].
    cbn [map sum_list_with snd]. rewrite IH. f_equal.
    rewrite <- (count_by_key UserId users
                  (List.filter (fun a => String.eqb (LoincCode a) c) frame) Hund).
    2: { intros r Hr. apply List.filter_In in Hr as [Hr _]. apply Huin. now apply in_map. }
    generalize users. intros us. induction us as [|u us IHu]; [reflexivity|].
    cbn [map sum_list_with snd]. rewrite IHu. f_equal.
    clear. induction frame as [|r t IHt]; [reflexivity|].
    cbn [List.filter]. destruct (String.eqb (LoincCode r) c); cbn [andb List.filter].
    + destruct (String.eqb (UserId r) u); cbn [length]; now rewrite IHt.
    + exact IHt.
Qed.

(** ** Axis bounds *)




(** ** The properties above on concrete inputs *)

Lemma combine_mode_one_figure_per_distinct_code_witness :
  exists n : nat,
    fst (DataExplorer.create_static_plot
           (observations [obs_row "A" "X" 1 60; obs_row "B" "Y" 2 70; obs_row "A" "X" 3 65])
           (explorer None None true, empty_world)) = Ok (seq 0 n).
Proof.
  destruct (combine_mode_one_figure_per_distinct_code (explorer None None true)
              (observations [obs_row "A" "X" 1 60; obs_row "B" "Y" 2 70;
                             obs_row "A" "X" 3 65]) empty_world)
    as (codes & new & w' & _ & _ & Hrun & _); [reflexivity|].
  exists (length codes). now rewrite Hrun.
Defined.

Lemma separate_mode_figure_or_notice_per_pair_witness :
  exists (n : nat) (w' : World),
    DataExplorer.create_static_plot
      (observations [obs_row "A" "X" 1 60; obs_row "B" "X" 2 70])
      (explorer None (Some (IdList [Some "A"; Some "C"])) false, empty_world)
    = (Ok (seq 0 n), (explorer None (Some (IdList [Some "A"; Some "C"])) false, w')).
Proof.
  destruct (separate_mode_figure_or_notice_per_pair
              (explorer None (Some (IdList [Some "A"; Some "C"])) false)
              (observations [obs_row "A" "X" 1 60; obs_row "B" "X" 2 70]) empty_world)
    as (new & notices & w' & Hrun & _); [reflexivity | discriminate |].
  exists (length new), w'. exact Hrun.
Defined.

Lemma default_render_draws_every_row_once_witness :
  exists new : list Figure,
    sum_list_with (fun fig => sum_list_with snd (series fig)) new = 3%nat.
Proof.
  destruct (default_render_draws_every_row_once (explorer None None true)
              (observations [obs_row "A" "X" 1 60; obs_row "B" "Y" 2 70;
                             obs_row "A" "X" 3 65]) empty_world)
    as (new & w' & _ & _ & Hsum); [reflexivity | now left | reflexivity |].
  exists new. exact Hsum.
Defined.




Lemma missing_payload_gives_placeholder_figure_witness :
  fst (ECGExplorer.plot_recording (ecg_row "A" 5 None "mV") (Some "A")
         (ECGExplorer.__init__, empty_world)) = Ok 0%nat.
Proof.
  now rewrite (missing_payload_gives_placeholder_figure ECGExplorer.__init__
                 (ecg_row "A" 5 None "mV") (Some "A") empty_world eq_refl).
Defined.

Lemma short_recording_plots_nothing_witness :
  ecg_parts [1; 2]%Q = [[]; []; []]
  /\ expected_waveforms (ecg_row "A" 5 (Some "  ") "mV")
     = Ok [(0%nat, []); (1%nat, []); (2%nat, [])].
Proof.
  destruct (@short_recording_plots_nothing QFloat) as [Hshort Hblank]. split.
  - apply Hshort. cbn. lia.
  - apply (Hblank _ "  "); [reflexivity|].
    intros c [<- | [<- | []]]; reflexivity.
Defined.

Lemma one_sided_date_range_filters_nothing_witness :
  date_filtered (with_end_date None (explorer (Some (5, 9)) None true))
    (observations [obs_row "A" "X" 1 60; obs_row "B" "Y" 2 70])
  = observations [obs_row "A" "X" 1 60; obs_row "B" "Y" 2 70].
Proof.
  destruct (@one_sided_date_range_filters_nothing QFloat RefCollaborators
              (Some "5") None 5) as [Hgen _]; [reflexivity | reflexivity |].
  destruct (Hgen (explorer (Some (1, 9)) None true)
              (with_end_date None (explorer (Some (5, 9)) None true))
              empty_world empty_world eq_refl) as [Hfilter _].
  apply Hfilter.
Defined.



Lemma group_counts_table_witness :
  exists users : list string,
    [("A", 2%nat); ("B", 0%nat)] =
    map (fun u => (u, length (List.filter
                                (fun r => String.eqb (LoincCode r) "X"
                                          && String.eqb (UserId r) u)
                                [raw_row (CellTime 1) "A" "X"; raw_row (CellTime 2) "B" "Y";
                                 raw_row (CellTime 3) "A" "X"]))) users.
Proof.
  destruct (group_counts_table [raw_row (CellTime 1) "A" "X"; raw_row (CellTime 2) "B" "Y";
                                raw_row (CellTime 3) "A" "X"])
    as (_ & (users & _ & _ & _ & Hline) & _).
  exists users. apply Hline. left. reflexivity.
Defined.


